(** * Verification of the browser-tool catalog of leave_request_bot

    Shallow embedding of [src/tools/browser_tools.py] (class [BrowserTools]).
    The Selenium driver the class talks to is modelled after the W3C
    WebDriver protocol that Selenium implements: a session holds a list of
    window handles, the active handle (if any), and for every handle the page
    it shows as a function of the (monotonic) clock, so that waits can see
    elements appear or vanish.  Python exceptions are values of [exn]; a tool
    either returns ([Ok]) or raises ([Raise]). *)

From Stdlib Require Import String Ascii List ZArith Bool Lia.
Import ListNotations.
#[local] Set Warnings "-register-all".

Local Open Scope Z_scope.
Local Open Scope string_scope.

(** ** Python exceptions raised by the driver and by the tools *)

Inductive exn :=
| NoSuchElementException
| TimeoutException
| ElementNotInteractableException
| StaleElementReferenceException
| NoSuchWindowException
| InvalidSelectorException
| InvalidSessionIdException
| InvalidElementStateException
| IndexError (msg : string).

(** [str(e)] for the modelled exceptions (Selenium prefixes "Message: "). *)
Definition str_exn (e : exn) : string :=
  match e with
  | NoSuchElementException => "Message: no such element"
  | TimeoutException => "Message: "
  | ElementNotInteractableException => "Message: element not interactable"
  | StaleElementReferenceException => "Message: stale element reference"
  | NoSuchWindowException => "Message: no such window"
  | InvalidSelectorException => "Message: invalid selector"
  | InvalidSessionIdException => "Message: invalid session id"
  | InvalidElementStateException => "Message: invalid element state"
  | IndexError m => m
  end.

(** ** Python values used by the tools *)

(** A value passed to [json.dumps(..., indent=2)]; a tool that returns
    [json.dumps(v)] is modelled as returning [v]. *)
Inductive json :=
| JBool (b : bool)
| JStr (s : string)
| JInt (z : Z)
| JList (l : list json)
| JObj (fields : list (string * json)).

Fixpoint jget (k : string) (fs : list (string * json)) : option json :=
  match fs with
  | [] => None
  | (k', v) :: fs' => if String.eqb k k' then Some v else jget k fs'
  end.

Definition field (k : string) (j : json) : option json :=
  match j with JObj fs => jget k fs | _ => None end.

(** Decimal rendering of an integer, as in an f-string. *)
Fixpoint digits (fuel : nat) (n : nat) (acc : string) : string :=
  match fuel with
  | O => acc
  | S f =>
      let acc' := String (ascii_of_nat (48 + Nat.modulo n 10)) acc in
      if Nat.ltb n 10 then acc' else digits f (Nat.div n 10) acc'
  end.

Definition str_nat (n : nat) : string := digits (S n) n "".

Definition str_int (z : Z) : string :=
  if Z.ltb z 0 then "-" ++ str_nat (Z.to_nat (- z)) else str_nat (Z.to_nat z).

(** [str.upper()] on the ASCII range. *)
Definition upper_char (c : ascii) : ascii :=
  let n := nat_of_ascii c in
  if andb (Nat.leb 97 n) (Nat.leb n 122) then ascii_of_nat (n - 32) else c.

Fixpoint upper (s : string) : string :=
  match s with
  | EmptyString => EmptyString
  | String c s' => String (upper_char c) (upper s')
  end.

(** [str.split()] with no argument: whitespace characters of the Latin-1
    range, runs of them separate tokens, empty tokens are dropped. *)
Definition py_space (c : ascii) : bool :=
  let n := nat_of_ascii c in
  orb (andb (Nat.leb 9 n) (Nat.leb n 13))
      (orb (andb (Nat.leb 28 n) (Nat.leb n 32))
           (orb (Nat.eqb n 133) (Nat.eqb n 160))).

Fixpoint split_acc (s : string) (cur : string) : list string :=
  match s with
  | EmptyString => if String.eqb cur "" then [] else [cur]
  | String c s' =>
      if py_space c
      then (if String.eqb cur "" then split_acc s' "" else cur :: split_acc s' "")
      else split_acc s' (cur ++ String c EmptyString)
  end.

Definition py_split (s : string) : list string := split_acc s "".

(** [s[:n]] *)
Definition slice_to (n : nat) (s : string) : string := substring 0 n s.

(** [sub in s] *)
Definition str_contains (sub s : string) : bool :=
  match String.index 0 sub s with Some _ => true | None => false end.

(** ** The page and the session *)

(** A DOM element, identified by [nid] (Selenium compares WebElements by
    this reference).  Absent attributes read as "". *)
Record node := mkNode {
  nid : nat;
  ntag : string;            (* element.tag_name *)
  nattr_id : string;        (* get_attribute("id") *)
  nattr_class : string;     (* get_attribute("class") *)
  nattr_type : string;      (* get_attribute("type") *)
  nparent : option nat;     (* parent element, None for the root *)
  ntext_nodes : list string;(* direct text-node children, for XPath text() *)
  ntext : string;           (* element.text, the rendered text *)
  ndisplayed : bool;        (* element.is_displayed() *)
  nenabled : bool           (* element.is_enabled() *)
}.

(** A loaded document: its elements in document order, and the browser's
    CSS selector engine: [css s] is [None] for a syntactically invalid
    selector, else the ids of the matching elements in document order. *)
Record page := mkPage {
  nodes : list node;
  css : string -> option (list nat)
}.

Record session := mkSession {
  alive : bool;                   (* false once the session has ended *)
  handles : list nat;             (* driver.window_handles, in order *)
  current : option nat;           (* the active window, if any *)
  tabs : nat -> Z -> page;        (* page shown by a window at a time *)
  web : string -> option (Z -> page); (* None: the load exceeds the page-load timeout *)
  clock : Z;                      (* time.monotonic(), in milliseconds *)
  latency : Z                     (* duration of one wait-condition round trip *)
}.

Definition set_current (c : option nat) (st : session) : session :=
  mkSession (alive st) (handles st) c (tabs st) (web st) (clock st) (latency st).

Definition set_handles (hs : list nat) (st : session) : session :=
  mkSession (alive st) hs (current st) (tabs st) (web st) (clock st) (latency st).

Definition set_alive (b : bool) (st : session) : session :=
  mkSession b (handles st) (current st) (tabs st) (web st) (clock st) (latency st).

Definition set_tab (h : nat) (tl : Z -> page) (st : session) : session :=
  mkSession (alive st) (handles st) (current st)
    (fun h' => if Nat.eqb h' h then tl else tabs st h') (web st) (clock st) (latency st).

Definition set_clock (t : Z) (st : session) : session :=
  mkSession (alive st) (handles st) (current st) (tabs st) (web st) t (latency st).

(** ** A state and exception monad for Python methods *)

Inductive result (A : Type) :=
| Ok (a : A)
| Raise (e : exn).
Arguments Ok {A} a.
Arguments Raise {A} e.

Definition M (A : Type) := session -> result A * session.

Definition ret {A} (a : A) : M A := fun st => (Ok a, st).
Definition raise {A} (e : exn) : M A := fun st => (Raise e, st).

Definition bind {A B} (m : M A) (k : A -> M B) : M B :=
  fun st => match m st with
            | (Ok a, st') => k a st'
            | (Raise e, st') => (Raise e, st')
            end.

Notation "x <- m ;; k" := (bind m (fun x => k))
  (at level 61, m at next level, right associativity).
Notation "m ;;; k" := (bind m (fun _ => k))
  (at level 61, right associativity).

(** [try: m  except: handler(e)] *)
Definition try_except {A} (m : M A) (handler : exn -> M A) : M A :=
  fun st => match m st with
            | (Ok a, st') => (Ok a, st')
            | (Raise e, st') => handler e st'
            end.

Definition gets {A} (f : session -> A) : M A := fun st => (Ok (f st), st).
Definition modify (f : session -> session) : M unit := fun st => (Ok tt, f st).

(** [time.sleep(ms / 1000)] *)
Definition sleep (ms : Z) : M unit := modify (fun st => set_clock (clock st + ms) st).

(** Run [m] and return its outcome, raised exception included, as a value. *)
Definition attempt {A} (m : M A) : M (result A) :=
  fun st => let '(r, st') := m st in (Ok r, st').

(** ** The driver: WebDriver commands used by the tools *)

(** Every command of an ended session fails with "invalid session id". *)
Definition live : M unit :=
  b <- gets alive;; if b then ret tt else raise InvalidSessionIdException.

(** [driver.window_handles] *)
Definition window_handles : M (list nat) := live;;; gets handles.

(** [driver.switch_to.window(h)] *)
Definition switch_to_window (h : nat) : M unit :=
  live;;;
  hs <- gets handles;;
  if existsb (Nat.eqb h) hs then modify (set_current (Some h))
  else raise NoSuchWindowException.

(** [driver.close()]: closes the active window; as in the WebDriver "Close
    Window" command, closing the last window ends the session. *)
Definition close : M unit :=
  live;;;
  c <- gets current;;
  match c with
  | None => raise NoSuchWindowException
  | Some h =>
      hs <- gets handles;;
      let hs' := filter (fun h' => negb (Nat.eqb h' h)) hs in
      modify (fun st => set_current None (set_handles hs' st));;;
      match hs' with
      | [] => modify (set_alive false)
      | _ => ret tt
      end
  end.

(** The document shown by the active window now. *)
Definition current_page : M page :=
  live;;;
  c <- gets current;;
  match c with
  | None => raise NoSuchWindowException
  | Some h => gets (fun st => tabs st h (clock st))
  end.

(** [driver.get(url)]; the page-load timeout surfaces as [TimeoutException]. *)
Definition get (url : string) : M unit :=
  live;;;
  c <- gets current;;
  match c with
  | None => raise NoSuchWindowException
  | Some h =>
      w <- gets (fun st => web st url);;
      match w with
      | None => raise TimeoutException
      | Some tl => modify (set_tab h tl)
      end
  end.

Definition lookup_node (p : page) (r : nat) : option node :=
  find (fun n => Nat.eqb (nid n) r) (nodes p).

(** [driver.find_elements(By.CSS_SELECTOR, s)] *)
Definition find_elements_css (s : string) : M (list nat) :=
  p <- current_page;;
  match css p s with
  | None => raise InvalidSelectorException
  | Some l => ret l
  end.

(** [driver.find_element(By.CSS_SELECTOR, s)]: the first match. *)
Definition find_element_css (s : string) : M nat :=
  l <- find_elements_css s;;
  match l with
  | [] => raise NoSuchElementException
  | r :: _ => ret r
  end.

(** The XPath engine, on the two query shapes [find_elements_by_text]
    builds: [//*[contains(text(), 'L')]] (the first text-node child contains
    L) and [//*[text()='L']] (some text-node child equals L).  An XPath
    string literal has no escape: it ends at the next quote, and whatever
    follows must close the query.  Other query strings are not valid
    queries here. *)
Definition contains_prefix : string := "//*[contains(text(), '".
Definition exact_prefix : string := "//*[text()='".

Fixpoint take_literal (s : string) : option (string * string) :=
  match s with
  | EmptyString => None
  | String c s' =>
      if Ascii.eqb c "'"%char then Some (EmptyString, s')
      else match take_literal s' with
           | None => None
           | Some (l, r) => Some (String c l, r)
           end
  end.

Definition first_text (n : node) : string :=
  match ntext_nodes n with [] => "" | t :: _ => t end.

Definition after (pre q : string) : string :=
  substring (String.length pre) (String.length q) q.

Definition xpath_eval (q : string) (p : page) : option (list nat) :=
  if String.prefix contains_prefix q then
    match take_literal (after contains_prefix q) with
    | Some (lit, rest) =>
        if String.eqb rest ")]"
        then Some (map nid (filter (fun n => str_contains lit (first_text n)) (nodes p)))
        else None
    | None => None
    end
  else if String.prefix exact_prefix q then
    match take_literal (after exact_prefix q) with
    | Some (lit, rest) =>
        if String.eqb rest "]"
        then Some (map nid (filter (fun n => existsb (String.eqb lit) (ntext_nodes n)) (nodes p)))
        else None
    | None => None
    end
  else None.

(** [driver.find_elements(By.XPATH, q)] *)
Definition find_elements_xpath (q : string) : M (list nat) :=
  p <- current_page;;
  match xpath_eval q p with
  | None => raise InvalidSelectorException
  | Some l => ret l
  end.

(** Reading a WebElement: a reference no longer in the document is stale. *)
Definition node_of (r : nat) : M node :=
  p <- current_page;;
  match lookup_node p r with
  | None => raise StaleElementReferenceException
  | Some n => ret n
  end.

Definition tag_name (r : nat) : M string := n <- node_of r;; ret (ntag n).
Definition text (r : nat) : M string := n <- node_of r;; ret (ntext n).
Definition is_displayed (r : nat) : M bool := n <- node_of r;; ret (ndisplayed n).
Definition is_enabled (r : nat) : M bool := n <- node_of r;; ret (nenabled n).

Definition get_attribute (r : nat) (name : string) : M string :=
  n <- node_of r;;
  ret (if String.eqb name "id" then nattr_id n
       else if String.eqb name "class" then nattr_class n
       else if String.eqb name "type" then nattr_type n
       else "").

(** [element.click()]: a hidden element cannot be clicked. *)
Definition click (r : nat) : M unit :=
  n <- node_of r;;
  if ndisplayed n then ret tt else raise ElementNotInteractableException.

(** [element.clear()] *)
Definition clear (r : nat) : M unit :=
  n <- node_of r;;
  if negb (ndisplayed n) then raise ElementNotInteractableException
  else if negb (nenabled n) then raise InvalidElementStateException
  else ret tt.

(** The special keys of [selenium.webdriver.common.keys.Keys] used here. *)
Inductive key := K_ENTER | K_TAB | K_ESCAPE | K_SPACE | K_BACKSPACE.

Inductive keys_payload := Typed (s : string) | Special (k : key).

(** [element.send_keys(payload)] *)
Definition send_keys (r : nat) (payload : keys_payload) : M unit :=
  n <- node_of r;;
  if andb (ndisplayed n) (nenabled n) then ret tt
  else raise ElementNotInteractableException.

(** [element.find_element(By.XPATH, "..")]: the root's parent is the
    document, which is not an element. *)
Definition parent_of (r : nat) : M nat :=
  n <- node_of r;;
  match nparent n with
  | None => raise InvalidSelectorException
  | Some q => ret q
  end.

(** [q] lies strictly below [r] in the tree. *)
Fixpoint below (fuel : nat) (p : page) (q r : nat) : bool :=
  match fuel with
  | O => false
  | S f =>
      match lookup_node p q with
      | None => false
      | Some n =>
          match nparent n with
          | None => false
          | Some q' => orb (Nat.eqb q' r) (below f p q' r)
          end
      end
  end.

(** [element.find_elements(By.TAG_NAME, t)]: the descendants of the element
    with tag [t], in document order. *)
Definition find_elements_tag (r : nat) (t : string) : M (list nat) :=
  _ <- node_of r;;
  p <- current_page;;
  ret (map nid (filter (fun n => andb (String.eqb (ntag n) t)
                                      (below (List.length (nodes p)) p (nid n) r))
                       (nodes p))).

(** ** [WebDriverWait(driver, timeout).until(method)]

    Selenium's loop: evaluate the condition; a truthy value is returned; an
    ignored exception (by default only [NoSuchElementException]) or a falsy
    value lets the loop go on; once [time.monotonic() > end_time] it raises
    [TimeoutException], otherwise it sleeps [poll_frequency] (0.5 s) and
    tries again.  Each evaluation of the condition takes [latency] ms.  The
    fuel is never the limit: every round that goes on adds at least 500 ms,
    so [2 * timeout + 2] rounds reach the deadline. *)
Definition ignored (e : exn) : bool :=
  match e with NoSuchElementException => true | _ => false end.

Definition POLL_FREQUENCY : Z := 500.

Fixpoint until_loop {A} (fuel : nat) (end_time : Z) (cond : M (option A)) : M A :=
  match fuel with
  | O => raise TimeoutException
  | S f =>
      r <- attempt cond;;
      modify (fun st => set_clock (clock st + latency st) st);;;
      let next :=
        now <- gets clock;;
        if Z.ltb end_time now then raise TimeoutException
        else sleep POLL_FREQUENCY;;; until_loop f end_time cond in
      match r with
      | Ok (Some v) => ret v
      | Ok None => next
      | Raise e => if ignored e then next else raise e
      end
  end.

Definition wait_until {A} (timeout : Z) (cond : M (option A)) : M A :=
  t0 <- gets clock;;
  until_loop (Z.to_nat timeout * 2 + 2) (t0 + timeout * 1000) cond.

(** [EC.presence_of_element_located((By.CSS_SELECTOR, s))] *)
Definition presence_of_element_located (s : string) : M (option nat) :=
  r <- find_element_css s;; ret (Some r).

(** [EC.element_to_be_clickable((By.CSS_SELECTOR, s))]: the first match, if
    it is displayed ([visibility_of]) and enabled. *)
Definition element_to_be_clickable (s : string) : M (option nat) :=
  r <- find_element_css s;;
  d <- is_displayed r;;
  if d then (e <- is_enabled r;; ret (if e then Some r else None))
  else ret None.

(** ** The tools of [BrowserTools] *)

Definition navigate_to_url (url : string) : M string :=
  get url;;; ret ("Navigated to " ++ url).

Definition click_element (selector : string) : M string :=
  element <- find_element_css selector;;
  click element;;;
  ret ("Clicked element with selector: " ++ selector).

Definition input_text (selector text : string) : M string :=
  element <- find_element_css selector;;
  clear element;;;
  send_keys element (Typed text);;;
  ret ("Entered text '" ++ text ++ "' into field with selector: " ++ selector).

Definition key_map : list (string * key) :=
  [("ENTER", K_ENTER); ("TAB", K_TAB); ("ESC", K_ESCAPE); ("ESCAPE", K_ESCAPE);
   ("SPACE", K_SPACE); ("BACKSPACE", K_BACKSPACE)].

Fixpoint lookup_key (k : string) (m : list (string * key)) : option key :=
  match m with
  | [] => None
  | (k', v) :: m' => if String.eqb k k' then Some v else lookup_key k m'
  end.

(** [', '.join(key_map)] *)
Definition supported_keys : string :=
  String.concat ", " (map fst key_map).

Definition press_key (selector key : string) : M string :=
  match lookup_key (upper key) key_map with
  | None =>
      ret ("Unsupported key '" ++ key ++ "'. Supported keys: " ++ supported_keys)
  | Some code =>
      element <- find_element_css selector;;
      send_keys element (Special code);;;
      ret ("Pressed " ++ upper key ++ " on element with selector: " ++ selector)
  end.

Definition wait_for_element (selector : string) (timeout : Z) : M string :=
  _ <- wait_until timeout (presence_of_element_located selector);;
  ret ("Element with selector '" ++ selector ++ "' appeared within "
       ++ str_int timeout ++ " s").

Definition switch_tab (index : Z) : M string :=
  hs <- window_handles;;
  if orb (Z.ltb index 0) (Z.leb (Z.of_nat (List.length hs)) index)
  then raise (IndexError ("Tab index " ++ str_int index ++ " out of range. "
                          ++ str_nat (List.length hs) ++ " tab(s) open."))
  else switch_to_window (nth (Z.to_nat index) hs O);;;
       ret ("Switched to tab " ++ str_int index).

Definition close_current_tab : M string :=
  close;;;
  hs <- window_handles;;
  match hs with
  | [] => ret tt
  | _ :: _ => switch_to_window (last hs O)
  end;;;
  ret "Closed current tab".

Definition check_element_exists (selector : string) : M json :=
  try_except
    (element <- find_element_css selector;;
     is_visible <- is_displayed element;;
     is_en <- is_enabled element;;
     tag <- tag_name element;;
     ty <- get_attribute element "type";;
     t1 <- text element;;
     txt <- (if String.eqb t1 "" then ret ""
             else (t2 <- text element;; ret (slice_to 100 t2)));;
     ret (JObj [("exists", JBool true);
                ("visible", JBool is_visible);
                ("enabled", JBool is_en);
                ("tag_name", JStr tag);
                ("type", JStr (if String.eqb ty "" then "unknown" else ty));
                ("text", JStr txt);
                ("message", JStr ("Element '" ++ selector ++ "' found and is "
                                  ++ (if is_visible then "visible" else "hidden")))]))
    (fun e =>
       match e with
       | NoSuchElementException =>
           ret (JObj [("exists", JBool false);
                      ("visible", JBool false);
                      ("enabled", JBool false);
                      ("message", JStr ("Element '" ++ selector ++ "' not found on the page"))])
       | _ => raise e
       end).

(** [_generate_selector(element)] *)
Definition _generate_selector (element : nat) : M string :=
  try_except
    (element_id <- get_attribute element "id";;
     if negb (String.eqb element_id "") then ret ("#" ++ element_id) else
     element_class <- get_attribute element "class";;
     if negb (String.eqb element_class "") then
       match py_split element_class with
       | [] => raise (IndexError "list index out of range")
       | c :: _ => ret ("." ++ c)
       end
     else
     tag <- tag_name element;;
     parent <- parent_of element;;
     siblings <- find_elements_tag parent tag;;
     let fix scan (i : nat) (l : list nat) : M string :=
       match l with
       | [] => ret tag
       | sibling :: l' =>
           if Nat.eqb sibling element
           then ret (tag ++ ":nth-child(" ++ str_nat (i + 1) ++ ")")
           else scan (S i) l'
       end in
     scan O siblings)
    (fun _ => tag_name element).

(** One entry of the [results] list; the dict literal is evaluated in
    source order. *)
Definition text_entry (i : nat) (element : nat) : M json :=
  tag <- tag_name element;;
  txt <- text element;;
  sel <- _generate_selector element;;
  vis <- is_displayed element;;
  en <- is_enabled element;;
  ret (JObj [("index", JInt (Z.of_nat i));
             ("tag_name", JStr tag);
             ("text", JStr (slice_to 100 txt));
             ("selector", JStr sel);
             ("visible", JBool vis);
             ("enabled", JBool en)]).

(** [for i, element in enumerate(elements): try: results.append(...) except: continue] *)
Fixpoint collect_entries (i : nat) (elements : list nat) : M (list json) :=
  match elements with
  | [] => ret []
  | element :: rest =>
      e <- try_except (x <- text_entry i element;; ret (Some x)) (fun _ => ret None);;
      tl <- collect_entries (S i) rest;;
      ret (match e with Some x => x :: tl | None => tl end)
  end.

Definition text_query (text : string) (partial_match : bool) : string :=
  if partial_match then "//*[contains(text(), '" ++ text ++ "')]"
  else "//*[text()='" ++ text ++ "']".

Definition find_elements_by_text (text : string) (partial_match : bool) : M json :=
  try_except
    (elements <- find_elements_xpath (text_query text partial_match);;
     results <- collect_entries O (firstn 10 elements);;
     ret (JObj [("count", JInt (Z.of_nat (List.length elements)));
                ("results", JList results);
                ("message", JStr ("Found " ++ str_nat (List.length elements)
                                  ++ " elements containing '" ++ text ++ "'"))]))
    (fun e =>
       ret (JObj [("count", JInt 0);
                  ("results", JList []);
                  ("message", JStr ("Error searching for text '" ++ text ++ "': "
                                    ++ str_exn e))])).

Definition safe_click_element (selector : string) (timeout : Z) : M string :=
  try_except
    (element <- wait_until timeout (element_to_be_clickable selector);;
     click element;;;
     ret ("Successfully clicked element with selector: " ++ selector))
    (fun e =>
       match e with
       | TimeoutException =>
           ret ("Element '" ++ selector ++ "' not clickable within "
                ++ str_int timeout ++ " seconds")
       | ElementNotInteractableException =>
           ret ("Element '" ++ selector ++ "' is not interactable (may be hidden or disabled)")
       | NoSuchElementException =>
           ret ("Element '" ++ selector ++ "' not found on the page")
       | _ => ret ("Error clicking element '" ++ selector ++ "': " ++ str_exn e)
       end).

Definition safe_input_text (selector text : string) (timeout : Z) : M string :=
  try_except
    (element <- wait_until timeout (presence_of_element_located selector);;
     en <- is_enabled element;;
     if negb en
     then ret ("Element '" ++ selector ++ "' is disabled and cannot receive input")
     else clear element;;;
          send_keys element (Typed text);;;
          ret ("Successfully entered text '" ++ text ++ "' into element with selector: "
               ++ selector))
    (fun e =>
       match e with
       | TimeoutException =>
           ret ("Element '" ++ selector ++ "' not found within "
                ++ str_int timeout ++ " seconds")
       | ElementNotInteractableException =>
           ret ("Element '" ++ selector ++ "' is not interactable (may be hidden or disabled)")
       | NoSuchElementException =>
           ret ("Element '" ++ selector ++ "' not found on the page")
       | _ => ret ("Error entering text into element '" ++ selector ++ "': " ++ str_exn e)
       end).

(** ** The other tools of [BrowserTools] *)

(** [driver.find_element(By.TAG_NAME, t)]: the first element of the
    document, in document order, with tag [t]. *)
Definition find_element_tag (t : string) : M nat :=
  p <- current_page;;
  match filter (fun n => String.eqb (ntag n) t) (nodes p) with
  | [] => raise NoSuchElementException
  | n :: _ => ret (nid n)
  end.

Definition get_page_content : M string :=
  body <- find_element_tag "body";;
  text body.

Definition get_element_text (selector : string) : M string :=
  element <- find_element_css selector;;
  text element.

(** The handle the browser gives a new window: one not in use. *)
Definition fresh_handle (hs : list nat) : nat := S (fold_right Nat.max O hs).

(** The document of a new blank window ([about:blank]). *)
Definition blank_document : page := mkPage [] (fun _ => Some []).

(** [driver.execute_script("window.open('');")]: the script runs in the
    active window and opens a new blank window after the existing ones; the
    active window of the session does not change. *)
Definition open_blank_window : M unit :=
  _ <- current_page;;
  modify (fun st => let n := fresh_handle (handles st) in
                    set_tab n (fun _ => blank_document)
                            (set_handles (handles st ++ [n]) st)).

(** [hs[-1]] on a Python list. *)
Definition last_of (hs : list nat) : M nat :=
  match rev hs with
  | [] => raise (IndexError "list index out of range")
  | h :: _ => ret h
  end.

(** [open_new_tab(url)]; [if url:] is false for [None] and for "". *)
Definition open_new_tab (url : option string) : M string :=
  open_blank_window;;;
  hs <- window_handles;;
  h <- last_of hs;;
  switch_to_window h;;;
  match url with
  | Some u =>
      if String.eqb u "" then ret "Opened new blank tab"
      else get u;;; ret ("Opened new tab and navigated to " ++ u)
  | None => ret "Opened new blank tab"
  end.

(** [driver.quit()] of the [webdriver.Chrome] the tools create:
    [try: super().quit() except Exception: pass finally: self.service.stop()].
    The remote quit ends the session, and fails on a session already ended;
    the handler swallows that failure.  Stopping the driver service leaves
    nothing to talk to: later commands fail (in Selenium with a connection
    error, a kind of failure this model does not tell apart; the state is
    represented as an ended session). *)
Definition quit : M unit := try_except (live;;; modify (set_alive false)) (fun _ => ret tt).

Definition close_browser : M string := quit;;; ret "Browser closed".

(** [element.find_elements] loops of [get_clickable_elements] and
    [get_form_elements]:
    [for element in elements: if keep(element): acc.append(entry(element))]
    inside [try: ... except: continue].  The list [acc] is shared: an
    exception ends the loop over this selector's elements, and the entries
    appended before it stay. *)
Fixpoint scan_matches (keep : nat -> M bool) (entry : nat -> M json)
  (elements : list nat) (acc : list json) : M (list json) :=
  match elements with
  | [] => ret acc
  | element :: rest =>
      r <- attempt (ok <- keep element;;
                    if ok then (x <- entry element;; ret (Some x)) else ret None);;
      match r with
      | Ok (Some x) => scan_matches keep entry rest (acc ++ [x])
      | Ok None => scan_matches keep entry rest acc
      | Raise _ => ret acc
      end
  end.

(** [for selector in selectors: try: elements = driver.find_elements(...); ...
    except: continue] *)
Fixpoint collect_matches (keep : nat -> M bool) (entry : nat -> M json)
  (selectors : list string) (acc : list json) : M (list json) :=
  match selectors with
  | [] => ret acc
  | selector :: rest =>
      r <- attempt (find_elements_css selector);;
      acc' <- (match r with
               | Ok elements => scan_matches keep entry elements acc
               | Raise _ => ret acc
               end);;
      collect_matches keep entry rest acc'
  end.

Definition clickable_selectors : list string :=
  ["button"; "input[type='button']"; "input[type='submit']"; "input[type='reset']";
   "a[href]"; "[onclick]"; "[role='button']"].

(** [element.is_displayed() and element.is_enabled()] *)
Definition displayed_and_enabled (element : nat) : M bool :=
  d <- is_displayed element;;
  if d then is_enabled element else ret false.

(** The dict appended by [get_clickable_elements], evaluated in source
    order; [element.text] is read twice when it is not empty. *)
Definition clickable_entry (element : nat) : M json :=
  tag <- tag_name element;;
  t1 <- text element;;
  txt <- (if String.eqb t1 "" then ret ""
          else (t2 <- text element;; ret (slice_to 50 t2)));;
  sel <- _generate_selector element;;
  ty <- get_attribute element "type";;
  href <- get_attribute element "href";;
  ret (JObj [("tag_name", JStr tag);
             ("text", JStr txt);
             ("selector", JStr sel);
             ("type", JStr (if String.eqb ty "" then "unknown" else ty));
             ("href", JStr href)]).

(** [element["selector"]] of an entry. *)
Definition selector_of (j : json) : string :=
  match field "selector" j with Some (JStr s) => s | _ => "" end.

(** The duplicate removal of [get_clickable_elements]: keep an entry when
    its selector is not in [seen_selectors] yet. *)
Fixpoint dedup_by_selector (l : list json) (seen : list string) : list json :=
  match l with
  | [] => []
  | x :: l' =>
      if existsb (String.eqb (selector_of x)) seen then dedup_by_selector l' seen
      else x :: dedup_by_selector l' (selector_of x :: seen)
  end.

Definition get_clickable_elements : M json :=
  try_except
    (all_clickable <- collect_matches displayed_and_enabled clickable_entry
                                      clickable_selectors [];;
     let unique_clickable := dedup_by_selector all_clickable [] in
     ret (JObj [("count", JInt (Z.of_nat (List.length unique_clickable)));
                ("elements", JList (firstn 20 unique_clickable));
                ("message", JStr ("Found " ++ str_nat (List.length unique_clickable)
                                  ++ " clickable elements"))]))
    (fun e =>
       ret (JObj [("count", JInt 0);
                  ("elements", JList []);
                  ("message", JStr ("Error finding clickable elements: " ++ str_exn e))])).

Definition form_selectors : list string :=
  ["input"; "textarea"; "select"; "button[type='submit']"].

(** The dict appended by [get_form_elements].  An absent attribute reads
    as "" in the model, so [get_attribute("required") is not None] is a
    non-empty value. *)
Definition form_entry (element : nat) : M json :=
  tag <- tag_name element;;
  ty <- get_attribute element "type";;
  name <- get_attribute element "name";;
  idv <- get_attribute element "id";;
  placeholder <- get_attribute element "placeholder";;
  value <- get_attribute element "value";;
  sel <- _generate_selector element;;
  req <- get_attribute element "required";;
  ret (JObj [("tag_name", JStr tag);
             ("type", JStr (if String.eqb ty "" then "unknown" else ty));
             ("name", JStr name);
             ("id", JStr idv);
             ("placeholder", JStr placeholder);
             ("value", JStr value);
             ("selector", JStr sel);
             ("required", JBool (negb (String.eqb req "")))]).

Definition get_form_elements : M json :=
  try_except
    (form_elements <- collect_matches is_displayed form_entry form_selectors [];;
     ret (JObj [("count", JInt (Z.of_nat (List.length form_elements)));
                ("elements", JList form_elements);
                ("message", JStr ("Found " ++ str_nat (List.length form_elements)
                                  ++ " form elements"))]))
    (fun e =>
       ret (JObj [("count", JInt 0);
                  ("elements", JList []);
                  ("message", JStr ("Error finding form elements: " ++ str_exn e))])).

(** What [driver.title], [driver.current_url] and [document.readyState]
    read from a document. *)
Record page_meta := mkMeta {
  ptitle : string;
  purl : string;
  pready : string
}.

(** The tools that read the document's title, URL or ready state, given
    what each document shows ([meta]). *)
Section PageMeta.
Variable meta : page -> page_meta.

(** [driver.title] *)
Definition title : M string := p <- current_page;; ret (ptitle (meta p)).

(** [driver.current_url] *)
Definition current_url : M string := p <- current_page;; ret (purl (meta p)).

(** [driver.execute_script("return document.readyState")] *)
Definition ready_state : M string := p <- current_page;; ret (pready (meta p)).

Definition common_selectors : list (string * string) :=
  [("buttons", "button, input[type='button'], input[type='submit'], input[type='reset']");
   ("links", "a");
   ("inputs", "input, textarea, select");
   ("forms", "form");
   ("images", "img");
   ("tables", "table")].

(** [for element_type, selector in common_selectors.items(): try: ...
    except: page_info["elements"][element_type] = 0] *)
Fixpoint count_elements (sels : list (string * string)) : M (list (string * json)) :=
  match sels with
  | [] => ret []
  | (element_type, selector) :: rest =>
      n <- try_except (elements <- find_elements_css selector;;
                       ret (Z.of_nat (List.length elements)))
                      (fun _ => ret 0);;
      tl <- count_elements rest;;
      ret ((element_type, JInt n) :: tl)
  end.

Definition get_page_info : M json :=
  try_except
    (t <- title;;
     u <- current_url;;
     counts <- count_elements common_selectors;;
     ret (JObj [("title", JStr t); ("url", JStr u); ("elements", JObj counts)]))
    (fun e => ret (JObj [("error", JStr ("Failed to get page info: " ++ str_exn e))])).

(** [lambda driver: driver.execute_script("return document.readyState") == "complete"] *)
Definition document_complete : M (option bool) :=
  rs <- ready_state;;
  ret (if String.eqb rs "complete" then Some true else None).

Definition wait_for_page_load (timeout : Z) : M string :=
  try_except
    (_ <- wait_until timeout document_complete;;
     sleep 2000;;;
     ret ("Page loaded successfully within " ++ str_int timeout ++ " seconds"))
    (fun e =>
       match e with
       | TimeoutException => ret ("Page load timeout after " ++ str_int timeout ++ " seconds")
       | _ => ret ("Error waiting for page load: " ++ str_exn e)
       end).

(** [refresh_page], [go_back] and [go_forward], given the driver command
    each one issues ([driver.refresh()], [driver.back()],
    [driver.forward()]); the history they move through is the driver's. *)
Definition refresh_page (refresh : M unit) : M string :=
  try_except
    (refresh;;;
     _ <- wait_for_page_load 10;;
     ret "Page refreshed successfully")
    (fun e => ret ("Error refreshing page: " ++ str_exn e)).

Definition go_back (back : M unit) : M string :=
  try_except
    (back;;;
     _ <- wait_for_page_load 10;;
     ret "Navigated back successfully")
    (fun e => ret ("Error navigating back: " ++ str_exn e)).

Definition go_forward (forward : M unit) : M string :=
  try_except
    (forward;;;
     _ <- wait_for_page_load 10;;
     ret "Navigated forward successfully")
    (fun e => ret ("Error navigating forward: " ++ str_exn e)).

End PageMeta.

(** ** Concrete sessions used by the examples *)

Definition mk_node (i : nat) (tag idv cls : string) (par : option nat)
  (txt : list string) (disp en : bool) : node :=
  mkNode i tag idv cls "" par txt (String.concat "" txt) disp en.

(** A page whose CSS engine answers from a fixed table. *)
Definition table_page (ns : list node) (tbl : list (string * list nat)) : page :=
  mkPage ns (fun s => match find (fun kv => String.eqb (fst kv) s) tbl with
                      | Some (_, l) => Some l
                      | None => Some []
                      end).

Definition static_session (hs : list nat) (c : option nat) (pg : nat -> page) : session :=
  mkSession true hs c (fun h _ => pg h) (fun _ => None) 0 1.

Definition empty_page : page := table_page [] [].

(** One tab showing a page with a visible but disabled button "#b". *)
Definition disabled_button_page : page :=
  table_page [mk_node 1 "button" "b" "" None ["Send"] true false] [("#b", [1%nat])].

(** A condition that only reads the session and, at every time, is falsy or
    raises an ignored exception. *)
Definition never_ready {A} (cond : M (option A)) (st : session) : Prop :=
  forall t, cond (set_clock t st) = (Ok None, set_clock t st)
         \/ cond (set_clock t st) = (Raise NoSuchElementException, set_clock t st).

(** [EC.element_to_be_clickable] at a page: [Some false] when no element
    matches or the first match is hidden or disabled. *)
Definition clickable_now (p : page) (s : string) : option bool :=
  match css p s with
  | None => None
  | Some [] => Some false
  | Some (r :: _) =>
      match lookup_node p r with
      | None => None
      | Some n => Some (andb (ndisplayed n) (nenabled n))
      end
  end.

(** Two tabs, handles 1 and 2, the first active. *)
Definition two_tabs : session := static_session [1%nat; 2%nat] (Some 1%nat) (fun _ => empty_page).

(** The session of [empty_page]: one tab, nothing on the page. *)
Definition blank_tab : session := static_session [1%nat] (Some 1%nat) (fun _ => empty_page).

(** A tab where "#b" is present (the disabled button page). *)
Definition button_tab : session :=
  static_session [1%nat] (Some 1%nat) (fun _ => disabled_button_page).


(** The handles left once window [h] is closed. *)
Definition remaining_handles (st : session) (h : nat) : list nat :=
  filter (fun h' => negb (Nat.eqb h' h)) (handles st).

(** A document with nesting: html(0) > div(1) > [span(2) > b(3)], b(4),
    span(5, class=" ").  Element 4 is the only [b] child of the div, but the
    div also has the [b] grandchild 3 before it. *)
Definition nested_page : page :=
  table_page
    [mk_node 0 "html" "" "" None [] true true;
     mk_node 1 "div" "" "" (Some 0%nat) [] true true;
     mk_node 2 "span" "" "" (Some 1%nat) [] true true;
     mk_node 3 "b" "" "" (Some 2%nat) ["x"] true true;
     mk_node 4 "b" "" "" (Some 1%nat) ["y"] true true;
     mk_node 5 "span" "" " " (Some 1%nat) ["z"] true true] [].

Definition nested_tab : session := static_session [1%nat] (Some 1%nat) (fun _ => nested_page).

(** The position the selector heuristic is meant to produce: the 1-based
    index of an element among the children of its parent that have its
    tag. *)
Definition sibling_position (p : page) (r : nat) : option nat :=
  match lookup_node p r with
  | None => None
  | Some n =>
      let sibs := map nid (filter (fun m => andb (String.eqb (ntag m) (ntag n))
                                                 (match nparent m, nparent n with
                                                  | Some a, Some b => Nat.eqb a b
                                                  | _, _ => false
                                                  end))
                                  (nodes p)) in
      let fix pos (i : nat) (l : list nat) :=
        match l with
        | [] => None
        | x :: l' => if Nat.eqb x r then Some i else pos (S i) l'
        end in
      pos 1%nat sibs
  end.

(** A page with one paragraph whose text is "it's here". *)
Definition quote_page : page :=
  table_page [mk_node 1 "p" "" "" None ["it's here"] true true] [].

Definition quote_tab : session := static_session [1%nat] (Some 1%nat) (fun _ => quote_page).

(** What [get_page_info] should report for a selector: the number of
    matches, or 0 when the selector is rejected. *)
Definition count_of (p : page) (s : string) : Z :=
  match css p s with Some l => Z.of_nat (List.length l) | None => 0 end.

(** The matches of [s] on [p] whose element satisfies [f]. *)
Definition matches_where (f : node -> bool) (p : page) (s : string) : list nat :=
  match css p s with
  | Some l => filter (fun r => match lookup_node p r with Some n => f n | None => false end) l
  | None => []
  end.

(** Every id the CSS engine returns on [p] for the selectors [sels] is an
    element of [p]. *)
Definition css_wf_on (p : page) (sels : list string) : bool :=
  forallb (fun s => match css p s with
                    | Some l => forallb (fun r => match lookup_node p r with
                                                  | Some _ => true
                                                  | None => false
                                                  end) l
                    | None => true
                    end) sels.

(** A page with two visible buttons sharing the class "btn", a hidden
    button, and a form with a visible and a hidden input. *)
Definition controls_page : page :=
  table_page
    [mk_node 1 "button" "" "btn" None ["Save"] true true;
     mk_node 2 "button" "" "btn primary" None ["Send"] true true;
     mk_node 3 "button" "ok" "" None ["OK"] false true;
     mk_node 4 "input" "user" "" None [] true true;
     mk_node 5 "input" "token" "" None [] false true]
    [("button", [1%nat; 2%nat; 3%nat]); ("input", [4%nat; 5%nat])].

Definition controls_tab : session :=
  static_session [1%nat] (Some 1%nat) (fun _ => controls_page).

(** A document with a body. *)
Definition body_page : page :=
  table_page [mk_node 1 "html" "" "" None [] true true;
              mk_node 2 "body" "" "" (Some 1%nat) ["Leave requests"] true true] [].

Definition body_tab : session := static_session [1%nat] (Some 1%nat) (fun _ => body_page).

(** Documents that report a title and URL, complete or still loading. *)
Definition complete_meta (p : page) : page_meta := mkMeta "HR" "https://erp.example/hr" "complete".
Definition loading_meta (p : page) : page_meta := mkMeta "HR" "https://erp.example/hr" "loading".

(** A session whose browser loads one address. *)
Definition web_tab : session :=
  mkSession true [1%nat] (Some 1%nat) (fun _ _ => empty_page)
    (fun u => if String.eqb u "https://erp.example/hr" then Some (fun _ => body_page) else None)
    0 1.

(** The session once [open_new_tab] has opened a blank window after the
    existing ones and made it the active one. *)
Definition with_new_tab (st : session) : session :=
  let n := fresh_handle (handles st) in
  set_current (Some n)
    (set_tab n (fun _ => blank_document) (set_handles (handles st ++ [n]) st)).

(** ** General facts about the model *)

Lemma set_clock_set_clock (a b : Z) (st : session) :
  set_clock a (set_clock b st) = set_clock a st.
Proof. reflexivity. Qed.

Lemma clock_set_clock (t : Z) (st : session) : clock (set_clock t st) = t.
Proof. reflexivity. Qed.

Lemma latency_set_clock (t : Z) (st : session) : latency (set_clock t st) = latency st.
Proof. reflexivity. Qed.

Lemma set_clock_clock (st : session) : set_clock (clock st) st = st.
Proof. destruct st; reflexivity. Qed.

Lemma until_loop_never_ready {A} (cond : M (option A)) (st : session) :
  never_ready cond st ->
  forall fuel end_time t,
    fst (until_loop fuel end_time cond (set_clock t st)) = Raise TimeoutException.
Proof.
  intros Hn fuel; induction fuel as [|f IH]; intros end_time t; [reflexivity|].
  cbn [until_loop]. unfold bind, attempt, modify, gets, sleep, raise, ret.
  destruct (Hn t) as [E|E]; rewrite E; cbn [ignored];
    rewrite ?clock_set_clock, ?latency_set_clock, ?set_clock_set_clock;
    destruct (Z.ltb end_time (t + latency st)); try reflexivity;
    cbn [fst]; unfold modify; rewrite ?clock_set_clock, ?set_clock_set_clock; apply IH.
Qed.

Lemma wait_until_never_ready {A} (cond : M (option A)) (st : session) (timeout : Z) :
  never_ready cond st ->
  fst (wait_until timeout cond st) = Raise TimeoutException.
Proof.
  intros Hn. unfold wait_until, bind, gets.
  rewrite <- (set_clock_clock st) at 2.
  apply until_loop_never_ready; exact Hn.
Qed.

Lemma until_loop_step_never_ready {A} (cond : M (option A)) (st : session) f end_time t :
  never_ready cond st ->
  until_loop (S f) end_time cond (set_clock t st) =
  if Z.ltb end_time (t + latency st)
  then (Raise TimeoutException, set_clock (t + latency st) st)
  else until_loop f end_time cond (set_clock (t + latency st + POLL_FREQUENCY) st).
Proof.
  intros Hn. cbn [until_loop]. unfold bind, attempt, modify, gets, sleep, raise, ret.
  destruct (Hn t) as [E|E]; rewrite E; cbn [ignored];
    rewrite ?clock_set_clock, ?latency_set_clock, ?set_clock_set_clock;
    destruct (Z.ltb end_time (t + latency st)); reflexivity.
Qed.

Lemma wait_until_unfold {A} (cond : M (option A)) (st : session) (timeout : Z) :
  wait_until timeout cond st =
  until_loop (Z.to_nat timeout * 2 + 2) (clock st + timeout * 1000) cond
             (set_clock (clock st) st).
Proof. unfold wait_until, bind, gets. rewrite set_clock_clock. reflexivity. Qed.

Lemma wait_until_zero_never_ready {A} (cond : M (option A)) (st : session) :
  never_ready cond st -> 0 <= latency st ->
  exists t, wait_until 0 cond st = (Raise TimeoutException, set_clock t st)
            /\ clock st <= t <= clock st + 2 * latency st + 500.
Proof.
  intros Hn Hlat. rewrite wait_until_unfold.
  cbn [Z.to_nat Nat.mul Nat.add].
  rewrite (until_loop_step_never_ready cond st 1 _ _ Hn).
  destruct (Z.ltb_spec (clock st + 0 * 1000) (clock st + latency st)).
  - exists (clock st + latency st). split; [reflexivity | lia].
  - rewrite (until_loop_step_never_ready cond st 0 _ _ Hn). unfold POLL_FREQUENCY.
    destruct (Z.ltb_spec (clock st + 0 * 1000) (clock st + latency st + 500 + latency st));
      [|lia].
    exists (clock st + latency st + 500 + latency st). split; [reflexivity | lia].
Qed.

Lemma try_bind_raise {A B} (m : M A) (k : A -> M B) (handler : exn -> M B) (st : session) (e : exn) :
  fst (m st) = Raise e ->
  try_except (bind m k) handler st = handler e (snd (m st)).
Proof.
  intros H. unfold try_except, bind. destruct (m st) as [[a|e'] st']; cbn in *;
    [discriminate | injection H as ->; reflexivity].
Qed.

(** Reading the active window at time [t]. *)
Lemma current_page_at (st : session) (h : nat) (t : Z) :
  alive st = true -> current st = Some h ->
  current_page (set_clock t st) = (Ok (tabs st h t), set_clock t st).
Proof.
  intros Ha Hc. destruct st; cbn in *; subst; reflexivity.
Qed.

Lemma find_element_css_absent (st : session) (h : nat) (s : string) (t : Z) :
  alive st = true -> current st = Some h -> css (tabs st h t) s = Some [] ->
  find_element_css s (set_clock t st) = (Raise NoSuchElementException, set_clock t st).
Proof.
  intros Ha Hc Hs. unfold find_element_css, find_elements_css, bind.
  rewrite (current_page_at st h t Ha Hc), Hs. reflexivity.
Qed.

Lemma presence_never_ready (st : session) (h : nat) (s : string) :
  alive st = true -> current st = Some h -> (forall t, css (tabs st h t) s = Some []) ->
  never_ready (presence_of_element_located s) st.
Proof.
  intros Ha Hc Hs t. right. unfold presence_of_element_located, bind.
  rewrite (find_element_css_absent st h s t Ha Hc (Hs t)). reflexivity.
Qed.

Lemma clickable_never_ready (st : session) (h : nat) (s : string) :
  alive st = true -> current st = Some h ->
  (forall t, clickable_now (tabs st h t) s = Some false) ->
  never_ready (element_to_be_clickable s) st.
Proof.
  intros Ha Hc Hs t. specialize (Hs t). unfold clickable_now in Hs.
  unfold element_to_be_clickable, find_element_css, find_elements_css, is_displayed,
    is_enabled, node_of, bind, ret, raise.
  rewrite (current_page_at st h t Ha Hc).
  destruct (css (tabs st h t) s) as [[|r l]|]; try discriminate; [right; reflexivity|].
  rewrite (current_page_at st h t Ha Hc).
  destruct (lookup_node (tabs st h t) r) as [n|] eqn:El; try discriminate.
  left. destruct (ndisplayed n); [|reflexivity].
  rewrite (current_page_at st h t Ha Hc). cbn in *. rewrite El.
  destruct (nenabled n); [discriminate | reflexivity].
Qed.

Lemma bind_raise_fst {A B} (m : M A) (k : A -> M B) (st : session) (e : exn) :
  fst (m st) = Raise e -> fst (bind m k st) = Raise e.
Proof.
  intros H. unfold bind. destruct (m st) as [[a|e'] st']; cbn in *; congruence.
Qed.

Lemma find_element_css_first (st : session) (h : nat) (s : string) (t : Z) (r : nat) (l : list nat) :
  alive st = true -> current st = Some h -> css (tabs st h t) s = Some (r :: l) ->
  find_element_css s (set_clock t st) = (Ok r, set_clock t st).
Proof.
  intros Ha Hc Hs. unfold find_element_css, find_elements_css, bind.
  rewrite (current_page_at st h t Ha Hc), Hs. reflexivity.
Qed.


(** A session whose browser has ended answers every command with an
    invalid-session error. *)
Lemma find_element_css_dead (st : session) (s : string) :
  alive st = false -> find_element_css s st = (Raise InvalidSessionIdException, st).
Proof.
  intros Ha. unfold find_element_css, find_elements_css, current_page, live, bind, gets.
  rewrite Ha. reflexivity.
Qed.

Lemma wait_until_first_fault {A} (cond : M (option A)) (st : session) (timeout : Z) (e : exn) :
  ignored e = false ->
  fst (cond (set_clock (clock st) st)) = Raise e ->
  fst (wait_until timeout cond st) = Raise e.
Proof.
  intros Hi Hf. rewrite wait_until_unfold.
  replace (Z.to_nat timeout * 2 + 2)%nat with (S (S (Z.to_nat timeout * 2))) by lia.
  cbn [until_loop]. unfold bind, attempt, modify.
  destruct (cond (set_clock (clock st) st)) as [[a|e'] st0]; cbn in Hf; [discriminate|].
  injection Hf as ->. rewrite Hi. reflexivity.
Qed.

(** ** Claims *)

(** C9: called with [timeout = 0] on a selector that matches no element at
    any time, [safe_click_element] and [safe_input_text] terminate with the
    timeout message ("not clickable within 0 seconds", "not found within 0
    seconds"); the clock advances by at most two condition round trips and
    one 0.5 s poll interval. *)
Theorem safe_ops_zero_timeout_terminate (st : session) (h : nat) (s text : string)
  (Halive : alive st = true) (Hcur : current st = Some h)
  (Hlat : 0 <= latency st) (Habsent : forall t, css (tabs st h t) s = Some []) :
  (exists t, safe_click_element s 0 st
             = (Ok ("Element '" ++ s ++ "' not clickable within 0 seconds"), set_clock t st)
          /\ clock st <= t <= clock st + 2 * latency st + 500) /\
  (exists t, safe_input_text s text 0 st
             = (Ok ("Element '" ++ s ++ "' not found within 0 seconds"), set_clock t st)
          /\ clock st <= t <= clock st + 2 * latency st + 500).
Proof.
  split.
  - assert (Hn : never_ready (element_to_be_clickable s) st).
    { apply (clickable_never_ready st h); auto.
      intro t. unfold clickable_now. rewrite Habsent. reflexivity. }
    destruct (wait_until_zero_never_ready _ st Hn Hlat) as (t & Hw & Ht).
    exists t. split; [|exact Ht]. unfold safe_click_element.
    rewrite (try_bind_raise _ _ _ st TimeoutException) by (rewrite Hw; reflexivity).
    rewrite Hw. reflexivity.
  - assert (Hn : never_ready (presence_of_element_located s) st)
      by (apply (presence_never_ready st h); auto).
    destruct (wait_until_zero_never_ready _ st Hn Hlat) as (t & Hw & Ht).
    exists t. split; [|exact Ht]. unfold safe_input_text.
    rewrite (try_bind_raise _ _ _ st TimeoutException) by (rewrite Hw; reflexivity).
    rewrite Hw. reflexivity.
Qed.

Lemma safe_ops_zero_timeout_terminate_witness :
  (exists t, safe_click_element "#zz" 0 (static_session [1%nat] (Some 1%nat) (fun _ => empty_page))
             = (Ok ("Element '#zz' not clickable within 0 seconds"),
                set_clock t (static_session [1%nat] (Some 1%nat) (fun _ => empty_page)))
          /\ 0 <= t <= 0 + 2 * 1 + 500) /\
  (exists t, safe_input_text "#zz" "x" 0 (static_session [1%nat] (Some 1%nat) (fun _ => empty_page))
             = (Ok ("Element '#zz' not found within 0 seconds"),
                set_clock t (static_session [1%nat] (Some 1%nat) (fun _ => empty_page)))
          /\ 0 <= t <= 0 + 2 * 1 + 500).
Proof.
  apply (safe_ops_zero_timeout_terminate
           (static_session [1%nat] (Some 1%nat) (fun _ => empty_page)) 1%nat "#zz" "x");
    [reflexivity | reflexivity | cbn; lia | intro t; reflexivity].
Defined.

(** C4: on a live session with an active tab, a (valid) selector that
    matches no element makes [check_element_exists] return the record with
    [exists = false] (and visible/enabled false) without raising; in general
    [check_element_exists] never signals absence by raising
    [NoSuchElementException]: whatever it raises is another fault. *)
Theorem check_element_exists_absent (st : session) (h : nat) (s : string)
  (Halive : alive st = true) (Hcur : current st = Some h)
  (Habsent : css (tabs st h (clock st)) s = Some []) :
  check_element_exists s st
  = (Ok (JObj [("exists", JBool false);
               ("visible", JBool false);
               ("enabled", JBool false);
               ("message", JStr ("Element '" ++ s ++ "' not found on the page"))]), st)
  /\ (forall st' s' e, fst (check_element_exists s' st') = Raise e ->
                       e <> NoSuchElementException).
Proof.
  split.
  - assert (F := find_element_css_absent st h s (clock st) Halive Hcur Habsent).
    rewrite set_clock_clock in F.
    unfold check_element_exists.
    rewrite (try_bind_raise _ _ _ st NoSuchElementException) by (rewrite F; reflexivity).
    rewrite F. reflexivity.
  - intros st' s' e. unfold check_element_exists, try_except.
    match goal with |- context [match ?m st' with _ => _ end] =>
      destruct (m st') as [[a|e'] st''] end; cbn; [discriminate|].
    destruct e'; cbn; intros H; inversion H; subst; discriminate.
Qed.

Lemma check_element_exists_absent_witness :
  check_element_exists "#zz" (static_session [1%nat] (Some 1%nat) (fun _ => empty_page))
  = (Ok (JObj [("exists", JBool false);
               ("visible", JBool false);
               ("enabled", JBool false);
               ("message", JStr ("Element '#zz' not found on the page"))]),
     static_session [1%nat] (Some 1%nat) (fun _ => empty_page)).
Proof.
  apply (check_element_exists_absent
           (static_session [1%nat] (Some 1%nat) (fun _ => empty_page)) 1%nat "#zz");
    reflexivity.
Defined.

Lemma existsb_eqb_In (x : nat) (l : list nat) : In x l -> existsb (Nat.eqb x) l = true.
Proof.
  intros Hin. apply existsb_exists. exists x. split; [exact Hin | apply Nat.eqb_refl].
Qed.

(** C7: [switch_tab index] raises [IndexError] and leaves the session
    unchanged when [index] is outside [0, len(window_handles)); inside that
    range it succeeds, the active window becomes the handle at [index], and
    the next element lookup reads the page of that window. *)
Theorem switch_tab_range (st : session) (index : Z) (Halive : alive st = true) :
  ((index < 0 \/ Z.of_nat (List.length (handles st)) <= index) ->
   exists msg, switch_tab index st = (Raise (IndexError msg), st)) /\
  (0 <= index < Z.of_nat (List.length (handles st)) ->
   let h := nth (Z.to_nat index) (handles st) O in
   switch_tab index st = (Ok ("Switched to tab " ++ str_int index), set_current (Some h) st)
   /\ current_page (set_current (Some h) st) = (Ok (tabs st h (clock st)), set_current (Some h) st)).
Proof.
  assert (Hsw : forall h, In h (handles st) ->
            switch_to_window h st = (Ok tt, set_current (Some h) st)).
  { intros h Hh. unfold switch_to_window, live, bind, gets, modify.
    rewrite Halive. unfold ret. cbv beta iota. rewrite (existsb_eqb_In h _ Hh).
    reflexivity. }
  unfold switch_tab, window_handles, live, bind, gets, ret, raise. rewrite Halive.
  split.
  - intros Hout.
    replace (orb (Z.ltb index 0) (Z.leb (Z.of_nat (List.length (handles st))) index))
      with true.
    + eexists. reflexivity.
    + destruct Hout as [H|H].
      * apply Z.ltb_lt in H. rewrite H. reflexivity.
      * apply Z.leb_le in H. rewrite H. symmetry. apply orb_true_r.
  - intros Hin.
    replace (orb (Z.ltb index 0) (Z.leb (Z.of_nat (List.length (handles st))) index))
      with false.
    + rewrite Hsw by (apply nth_In; lia).
      split; [reflexivity|].
      unfold current_page, live, bind, gets. cbn. rewrite Halive. reflexivity.
    + symmetry. apply orb_false_iff. split; [apply Z.ltb_ge | apply Z.leb_gt]; lia.
Qed.

Lemma switch_tab_range_witness :
  (exists msg, switch_tab 2 two_tabs = (Raise (IndexError msg), two_tabs)) /\
  switch_tab 1 two_tabs = (Ok ("Switched to tab 1"), set_current (Some 2%nat) two_tabs).
Proof.
  split.
  - apply (proj1 (switch_tab_range two_tabs 2 eq_refl)). right. cbn. lia.
  - apply (proj2 (switch_tab_range two_tabs 1 eq_refl)). cbn. lia.
Defined.

Lemma lookup_key_vocabulary (k : string) :
  lookup_key k key_map <> None <->
  In k ["ENTER"; "TAB"; "ESC"; "ESCAPE"; "SPACE"; "BACKSPACE"].
Proof.
  split.
  - intros H. destruct (lookup_key k key_map) eqn:E; [clear H | congruence].
    unfold key_map in E. cbn [lookup_key] in E. revert E.
    repeat match goal with
           | |- context [String.eqb k ?x] =>
               destruct (String.eqb_spec k x) as [->|?];
               [intros _; cbn; repeat (try (left; reflexivity); right) |]
           end.
    intros E'; discriminate E'.
  - intros H. repeat destruct H as [<-|H]; try contradiction; cbn; discriminate.
Qed.

(** C5: [press_key] looks the key name up after [key.upper()]: two names
    with the same upper-case form in the vocabulary {ENTER, TAB, ESC, ESCAPE,
    SPACE, BACKSPACE} behave identically (in particular "enter" and
    "ENTER"), and a name whose upper-case form is outside the vocabulary
    returns the rejection string listing the supported keys, without raising
    and without touching the browser. *)
Theorem press_key_case_insensitive (st : session) (s k1 k2 : string) :
  (upper k1 = upper k2 ->
   In (upper k1) ["ENTER"; "TAB"; "ESC"; "ESCAPE"; "SPACE"; "BACKSPACE"] ->
   press_key s k1 st = press_key s k2 st) /\
  (~ In (upper k1) ["ENTER"; "TAB"; "ESC"; "ESCAPE"; "SPACE"; "BACKSPACE"] ->
   press_key s k1 st
   = (Ok ("Unsupported key '" ++ k1
          ++ "'. Supported keys: ENTER, TAB, ESC, ESCAPE, SPACE, BACKSPACE"), st)) /\
  press_key s "enter" st = press_key s "ENTER" st.
Proof.
  split; [|split].
  - intros Hu Hin. unfold press_key. rewrite Hu in *.
    apply lookup_key_vocabulary in Hin.
    destruct (lookup_key (upper k2) key_map); [reflexivity | congruence].
  - intros Hout. unfold press_key.
    destruct (lookup_key (upper k1) key_map) eqn:E.
    + exfalso. apply Hout, lookup_key_vocabulary. rewrite E. discriminate.
    + reflexivity.
  - reflexivity.
Qed.

Lemma press_key_case_insensitive_witness :
  press_key "#q" "Tab" (static_session [1%nat] (Some 1%nat) (fun _ => empty_page))
  = press_key "#q" "tAB" (static_session [1%nat] (Some 1%nat) (fun _ => empty_page)) /\
  press_key "#q" "nonsense" (static_session [1%nat] (Some 1%nat) (fun _ => empty_page))
  = (Ok ("Unsupported key 'nonsense'. Supported keys: ENTER, TAB, ESC, ESCAPE, SPACE, BACKSPACE"),
     static_session [1%nat] (Some 1%nat) (fun _ => empty_page)).
Proof.
  split.
  - apply (proj1 (press_key_case_insensitive
                    (static_session [1%nat] (Some 1%nat) (fun _ => empty_page)) "#q" "Tab" "tAB"));
      [reflexivity | cbn; tauto].
  - apply (proj1 (proj2 (press_key_case_insensitive
                    (static_session [1%nat] (Some 1%nat) (fun _ => empty_page)) "#q" "nonsense" "")));
      cbn; intuition discriminate.
Defined.

Lemma wait_until_present (st : session) (h : nat) (s : string) (timeout : Z) (r : nat) (l : list nat) :
  alive st = true -> current st = Some h -> css (tabs st h (clock st)) s = Some (r :: l) ->
  fst (wait_until timeout (presence_of_element_located s) st) = Ok r.
Proof.
  intros Ha Hc Hs. rewrite wait_until_unfold.
  replace (Z.to_nat timeout * 2 + 2)%nat with (S (S (Z.to_nat timeout * 2))) by lia.
  cbn [until_loop]. unfold bind at 1, attempt, presence_of_element_located.
  unfold bind at 1. rewrite (find_element_css_first st h s (clock st) r l Ha Hc Hs).
  reflexivity.
Qed.

(** C2 (as stated): [wait_for_element] raises [TimeoutException] when the
    element has not appeared by the deadline. *)
Lemma wait_for_element_raises_on_timeout :
  fst (wait_for_element "#zz" 0 blank_tab) = Raise TimeoutException.
Proof. vm_compute. reflexivity. Qed.

(** C2 (amended): [wait_for_element] polls every 0.5 s for an element
    matching the selector; if one is present it returns the success string,
    and if none appears by the deadline it raises [TimeoutException] to the
    caller (it has no exception handler). *)
Theorem wait_for_element_outcomes (st : session) (h : nat) (s : string) (timeout : Z)
  (Halive : alive st = true) (Hcur : current st = Some h) :
  ((forall t, css (tabs st h t) s = Some []) ->
   fst (wait_for_element s timeout st) = Raise TimeoutException) /\
  (forall r l, css (tabs st h (clock st)) s = Some (r :: l) ->
   fst (wait_for_element s timeout st)
   = Ok ("Element with selector '" ++ s ++ "' appeared within " ++ str_int timeout ++ " s")).
Proof.
  split.
  - intros Habs. unfold wait_for_element. apply bind_raise_fst.
    apply wait_until_never_ready, (presence_never_ready st h); assumption.
  - intros r l Hs. pose proof (wait_until_present st h s timeout r l Halive Hcur Hs) as W.
    unfold wait_for_element, bind.
    destruct (wait_until timeout (presence_of_element_located s) st) as [[a|e] st'];
      cbn in W; [|discriminate]. reflexivity.
Qed.

Lemma wait_for_element_outcomes_witness :
  fst (wait_for_element "#zz" 3 blank_tab) = Raise TimeoutException /\
  fst (wait_for_element "#b" 3 button_tab)
  = Ok ("Element with selector '#b' appeared within 3 s").
Proof.
  split.
  - apply (proj1 (wait_for_element_outcomes blank_tab 1%nat "#zz" 3 eq_refl eq_refl)).
    intro t; reflexivity.
  - apply (proj2 (wait_for_element_outcomes button_tab 1%nat "#b" 3 eq_refl eq_refl) 1%nat []).
    reflexivity.
Defined.




Lemma wait_until_ready {A} (cond : M (option A)) (st : session) (timeout : Z) (v : A) :
  cond (set_clock (clock st) st) = (Ok (Some v), set_clock (clock st) st) ->
  wait_until timeout cond st = (Ok v, set_clock (clock st + latency st) st).
Proof.
  intros H. rewrite wait_until_unfold.
  replace (Z.to_nat timeout * 2 + 2)%nat with (S (S (Z.to_nat timeout * 2))) by lia.
  cbn [until_loop]. unfold bind, attempt, modify. rewrite H. reflexivity.
Qed.






Section StaticTab.
(** The active window [h] shows the same page [p] throughout, and the
    first element matching [s] there is [n]. *)
Variables (st : session) (h : nat) (p : page) (s : string) (r : nat) (l : list nat) (n : node).
Hypothesis Halive : alive st = true.
Hypothesis Hcur : current st = Some h.
Hypothesis Hstatic : forall t, tabs st h t = p.
Hypothesis Hmatch : css p s = Some (r :: l).
Hypothesis Hnode : lookup_node p r = Some n.





End StaticTab.



Lemma last_In_cons (x : nat) (xs : list nat) (d : nat) : In (last (x :: xs) d) (x :: xs).
Proof.
  revert x. induction xs as [|y ys IH]; intros x; [left; reflexivity|].
  right. change (last (x :: y :: ys) d) with (last (y :: ys) d). apply IH.
Qed.

(** Once the browser session has ended, every selector-based tool that
    reaches the driver fails with the invalid-session error: the plain tools
    raise it, the [safe_*] tools report it in their error string. *)
Lemma ended_session_tools (st : session) (s text : string) (timeout : Z) (k : string) :
  alive st = false ->
  fst (click_element s st) = Raise InvalidSessionIdException /\
  fst (input_text s text st) = Raise InvalidSessionIdException /\
  fst (check_element_exists s st) = Raise InvalidSessionIdException /\
  fst (wait_for_element s timeout st) = Raise InvalidSessionIdException /\
  (In (upper k) ["ENTER"; "TAB"; "ESC"; "ESCAPE"; "SPACE"; "BACKSPACE"] ->
   fst (press_key s k st) = Raise InvalidSessionIdException) /\
  fst (safe_click_element s timeout st)
  = Ok ("Error clicking element '" ++ s ++ "': " ++ str_exn InvalidSessionIdException) /\
  fst (safe_input_text s text timeout st)
  = Ok ("Error entering text into element '" ++ s ++ "': "
        ++ str_exn InvalidSessionIdException).
Proof.
  intros Ha.
  assert (F : forall t, find_element_css s (set_clock t st)
                        = (Raise InvalidSessionIdException, set_clock t st))
    by (intro t; apply find_element_css_dead; exact Ha).
  assert (F0 := F (clock st)). rewrite set_clock_clock in F0.
  assert (Wp : fst (wait_until timeout (presence_of_element_located s) st)
               = Raise InvalidSessionIdException).
  { apply wait_until_first_fault; [reflexivity|].
    unfold presence_of_element_located, bind. rewrite F. reflexivity. }
  assert (Wc : fst (wait_until timeout (element_to_be_clickable s) st)
               = Raise InvalidSessionIdException).
  { apply wait_until_first_fault; [reflexivity|].
    unfold element_to_be_clickable, bind. rewrite F. reflexivity. }
  split; [apply bind_raise_fst; rewrite F0; reflexivity|].
  split; [apply bind_raise_fst; rewrite F0; reflexivity|].
  split.
  { unfold check_element_exists.
    rewrite (try_bind_raise _ _ _ st InvalidSessionIdException) by (rewrite F0; reflexivity).
    rewrite F0. reflexivity. }
  split; [apply bind_raise_fst; exact Wp|].
  split.
  { intros Hk. apply lookup_key_vocabulary in Hk. unfold press_key.
    destruct (lookup_key (upper k) key_map); [|congruence].
    apply bind_raise_fst. rewrite F0. reflexivity. }
  split.
  - unfold safe_click_element. rewrite (try_bind_raise _ _ _ st _ Wc). reflexivity.
  - unfold safe_input_text. rewrite (try_bind_raise _ _ _ st _ Wp). reflexivity.
Qed.

Lemma close_current_tab_run (st : session) (h : nat) :
  alive st = true -> current st = Some h ->
  close_current_tab st =
  match remaining_handles st h with
  | [] => (Raise InvalidSessionIdException,
           set_alive false (set_current None (set_handles [] st)))
  | x :: xs => (Ok "Closed current tab",
                set_current (Some (last (x :: xs) O)) (set_handles (x :: xs) st))
  end.
Proof.
  intros Ha Hc.
  unfold close_current_tab, close, window_handles, live, bind, gets, modify, ret, raise.
  rewrite Ha, Hc. cbv beta iota.
  change (filter (fun h' => negb (Nat.eqb h' h)) (handles st)) with (remaining_handles st h).
  destruct (remaining_handles st h) as [|x xs] eqn:E; [reflexivity|].
  cbn [alive set_current set_handles handles]. rewrite Ha.
  unfold switch_to_window, live, bind, gets, modify, ret. cbn [alive handles set_current set_handles].
  rewrite Ha. cbv beta iota.
  change (handles (set_current None (set_handles (x :: xs) st))) with (x :: xs).
  rewrite (existsb_eqb_In _ _ (last_In_cons x xs O)). reflexivity.
Qed.

(** C8 (code_bug): closing the only tab ends the browser session, so the
    [self.driver.window_handles] read of the guard [if
    self.driver.window_handles:] raises the invalid-session error out of
    [close_current_tab]: the guard never sees an empty list, and the tool
    raises instead of returning with no active tab.  No tab is active
    afterwards and the plain tools fail with the session error, but
    [press_key] with an unsupported key name still answers with its
    rejection string. *)
Lemma close_last_tab_raises :
  fst (close_current_tab blank_tab) = Raise InvalidSessionIdException /\
  current (snd (close_current_tab blank_tab)) = None /\
  fst (click_element "#q" (snd (close_current_tab blank_tab))) = Raise InvalidSessionIdException /\
  fst (press_key "#q" "nonsense" (snd (close_current_tab blank_tab)))
  = Ok "Unsupported key 'nonsense'. Supported keys: ENTER, TAB, ESC, ESCAPE, SPACE, BACKSPACE".
Proof. vm_compute. repeat split. Qed.

(** [close_current_tab] closes the active tab.  If other tabs remain it
    switches to the last remaining handle and returns "Closed current tab".
    If it closed the last tab, the driver ends the session: the handle read
    of its guard raises the invalid-session error out of the tool, no tab is
    active, and afterwards the selector-based tools that reach the driver
    fail with that error (raised by the plain tools and by [press_key] with
    a supported key, reported as an error string by the [safe_*] tools). *)
Theorem close_current_tab_focus (st : session) (h : nat)
  (Halive : alive st = true) (Hcur : current st = Some h) :
  (remaining_handles st h <> [] ->
   close_current_tab st
   = (Ok "Closed current tab",
      set_current (Some (last (remaining_handles st h) O))
                  (set_handles (remaining_handles st h) st))) /\
  (remaining_handles st h = [] ->
   fst (close_current_tab st) = Raise InvalidSessionIdException /\
   current (snd (close_current_tab st)) = None /\
   forall s text timeout k,
     fst (click_element s (snd (close_current_tab st))) = Raise InvalidSessionIdException /\
     fst (input_text s text (snd (close_current_tab st))) = Raise InvalidSessionIdException /\
     fst (check_element_exists s (snd (close_current_tab st)))
       = Raise InvalidSessionIdException /\
     fst (wait_for_element s timeout (snd (close_current_tab st)))
       = Raise InvalidSessionIdException /\
     (In (upper k) ["ENTER"; "TAB"; "ESC"; "ESCAPE"; "SPACE"; "BACKSPACE"] ->
      fst (press_key s k (snd (close_current_tab st))) = Raise InvalidSessionIdException) /\
     fst (safe_click_element s timeout (snd (close_current_tab st)))
     = Ok ("Error clicking element '" ++ s ++ "': " ++ str_exn InvalidSessionIdException) /\
     fst (safe_input_text s text timeout (snd (close_current_tab st)))
     = Ok ("Error entering text into element '" ++ s ++ "': "
           ++ str_exn InvalidSessionIdException)).
Proof.
  rewrite (close_current_tab_run st h Halive Hcur).
  split.
  - intros Hne. destruct (remaining_handles st h); [congruence | reflexivity].
  - intros He. rewrite He. split; [reflexivity|]. split; [reflexivity|].
    intros s text timeout k. apply ended_session_tools. reflexivity.
Qed.

Lemma close_current_tab_focus_witness :
  close_current_tab two_tabs
  = (Ok "Closed current tab", set_current (Some 2%nat) (set_handles [2%nat] two_tabs)) /\
  fst (click_element "#q" (snd (close_current_tab blank_tab))) = Raise InvalidSessionIdException.
Proof.
  split.
  - apply (proj1 (close_current_tab_focus two_tabs 1%nat eq_refl eq_refl)). discriminate.
  - apply (proj2 (proj2 (proj2 (close_current_tab_focus blank_tab 1%nat eq_refl eq_refl)
                                 eq_refl)) "#q" "" 0 "").
Defined.

(** C6 (code_bug): [_generate_selector] counts the element among all
    same-tag descendants of its parent ([find_elements(By.TAG_NAME)] searches
    the subtree), not among its same-tag siblings: element 4 is the first
    [b] child of the div, yet gets "b:nth-child(2)".  And a class attribute
    made only of whitespace has no first token: the [IndexError] lands in
    the catch-all handler, which returns the bare tag name. *)
Theorem generate_selector_counts_descendants :
  sibling_position nested_page 4 = Some 1%nat /\
  _generate_selector 4 nested_tab = (Ok "b:nth-child(2)", nested_tab) /\
  _generate_selector 5 nested_tab = (Ok "span", nested_tab).
Proof. vm_compute. repeat split. Qed.

(** C10 (code_bug): the search text is put into the XPath string literal
    without escaping, so a text with a quote makes the query invalid: the
    tool reports [count = 0] while one element of the page contains the
    text. *)
Theorem find_elements_by_text_quote_count :
  List.length (filter (fun n => str_contains "it's" (first_text n)) (nodes quote_page)) = 1%nat /\
  fst (find_elements_by_text "it's" true quote_tab)
  = Ok (JObj [("count", JInt 0);
              ("results", JList []);
              ("message", JStr "Error searching for text 'it's': Message: invalid selector")]).
Proof. vm_compute. split; reflexivity. Qed.

Lemma collect_entries_ok (elements : list nat) :
  forall i st, exists js st',
    collect_entries i elements st = (Ok js, st') /\ (List.length js <= List.length elements)%nat.
Proof.
  induction elements as [|r rest IH]; intros i st.
  - exists [], st. split; [reflexivity | cbn; lia].
  - cbn [collect_entries]. unfold bind at 1, try_except.
    set (m := bind (text_entry i r) (fun x => ret (Some x))).
    assert (Hm : exists o st1, (match m st with
                                | (Ok a, st') => (Ok a, st')
                                | (Raise _, st') => ret None st'
                                end) = (Ok o, st1)).
    { destruct (m st) as [[a|e] st']; eexists; eexists; reflexivity. }
    destruct Hm as (o & st1 & Ho). rewrite Ho.
    destruct (IH (S i) st1) as (js & st2 & Hjs & Hlen).
    unfold bind. rewrite Hjs.
    destruct o as [x|]; eexists; eexists; (split; [reflexivity | cbn; lia]).
Qed.

(** Away from the failing query, the record is as intended: [count] is the
    number of elements the query returns and [results] has at most the
    first 10 of them, so with more than 10 matches [count] exceeds the
    length of [results]. *)
Lemma find_elements_by_text_counts (st : session) (text : string) (partial_match : bool)
  (elements : list nat) :
  fst (find_elements_xpath (text_query text partial_match) st) = Ok elements ->
  exists results,
    fst (find_elements_by_text text partial_match st)
    = Ok (JObj [("count", JInt (Z.of_nat (List.length elements)));
                ("results", JList results);
                ("message", JStr ("Found " ++ str_nat (List.length elements)
                                  ++ " elements containing '" ++ text ++ "'"))])
    /\ (List.length results <= 10)%nat
    /\ (10 < List.length elements -> List.length results < List.length elements)%nat.
Proof.
  intros H. unfold find_elements_by_text, try_except, bind at 1.
  destruct (find_elements_xpath (text_query text partial_match) st) as [[a|e] st1];
    cbn in H; [|discriminate]. injection H as ->.
  destruct (collect_entries_ok (firstn 10 elements) O st1) as (js & st2 & Hc & Hl).
  unfold bind. rewrite Hc. exists js. split; [reflexivity|].
  rewrite length_firstn in Hl. split; lia.
Qed.

(** ** Further properties of the tools *)

(** The active window's document, read now. *)
Lemma current_page_now (st : session) (h : nat) :
  alive st = true -> current st = Some h ->
  current_page st = (Ok (tabs st h (clock st)), st).
Proof. intros Ha Hc. destruct st; cbn in *; subst; reflexivity. Qed.

Lemma current_page_no_window (st : session) :
  alive st = false \/ current st = None ->
  exists e, current_page st = (Raise e, st).
Proof.
  intros [Ha|Hc]; destruct st; cbn in *; subst;
    [eexists; reflexivity | destruct alive0; eexists; reflexivity].
Qed.

(** Reading element [r] of the active window's document now. *)
Lemma node_of_now (st : session) (h r : nat) (n : node) :
  alive st = true -> current st = Some h -> lookup_node (tabs st h (clock st)) r = Some n ->
  node_of r st = (Ok n, st).
Proof.
  intros Ha Hc Hn. unfold node_of, bind. rewrite (current_page_now st h Ha Hc), Hn.
  reflexivity.
Qed.

(** Run the reads of element [r] of the active window's document. *)
Ltac run_node Ha Hc Hn :=
  repeat progress (rewrite ?(node_of_now _ _ _ _ Ha Hc Hn); cbv beta iota delta [negb andb]).

Lemma find_elements_css_now (st : session) (h : nat) (s : string) :
  alive st = true -> current st = Some h ->
  find_elements_css s st
  = (match css (tabs st h (clock st)) s with
     | None => Raise InvalidSelectorException
     | Some l => Ok l
     end, st).
Proof.
  intros Ha Hc. unfold find_elements_css, bind. rewrite (current_page_now st h Ha Hc).
  destruct (css _ s); reflexivity.
Qed.

Lemma find_elements_css_no_window (st : session) (s : string) :
  alive st = false \/ current st = None ->
  exists e, find_elements_css s st = (Raise e, st).
Proof.
  intros H. destruct (current_page_no_window st H) as [e He].
  exists e. unfold find_elements_css, bind. rewrite He. reflexivity.
Qed.

Lemma find_element_css_now (st : session) (h : nat) (s : string) :
  alive st = true -> current st = Some h ->
  find_element_css s st
  = (match css (tabs st h (clock st)) s with
     | None => Raise InvalidSelectorException
     | Some [] => Raise NoSuchElementException
     | Some (r :: _) => Ok r
     end, st).
Proof.
  intros Ha Hc. unfold find_element_css, bind at 1. rewrite (find_elements_css_now st h s Ha Hc).
  destruct (css _ s) as [[|r l]|]; reflexivity.
Qed.

(** [get_element_text] reads the text of the first match; an invalid
    selector or no match is raised to the caller. *)
Theorem get_element_text_outcomes (st : session) (h : nat) (s : string)
  (Halive : alive st = true) (Hcur : current st = Some h) :
  (css (tabs st h (clock st)) s = None ->
   get_element_text s st = (Raise InvalidSelectorException, st)) /\
  (css (tabs st h (clock st)) s = Some [] ->
   get_element_text s st = (Raise NoSuchElementException, st)) /\
  (forall r l n, css (tabs st h (clock st)) s = Some (r :: l) ->
   lookup_node (tabs st h (clock st)) r = Some n ->
   get_element_text s st = (Ok (ntext n), st)).
Proof.
  unfold get_element_text, text, bind. rewrite (find_element_css_now st h s Halive Hcur).
  split; [|split].
  - intros E. rewrite E. reflexivity.
  - intros E. rewrite E. reflexivity.
  - intros r l n E En. rewrite E. unfold bind, ret.
    rewrite (node_of_now st h r n Halive Hcur En). reflexivity.
Qed.

Lemma get_element_text_outcomes_witness :
  get_element_text "#b" button_tab = (Ok "Send", button_tab).
Proof.
  apply (proj2 (proj2 (get_element_text_outcomes button_tab 1%nat "#b" eq_refl eq_refl))
           1%nat [] (mk_node 1 "button" "b" "" None ["Send"] true false)); reflexivity.
Defined.

(** [get_page_content] returns the rendered text of the document's first
    [body] element, and raises [NoSuchElementException] when there is none. *)
Theorem get_page_content_body (st : session) (h : nat)
  (Halive : alive st = true) (Hcur : current st = Some h) :
  (filter (fun n => String.eqb (ntag n) "body") (nodes (tabs st h (clock st))) = [] ->
   get_page_content st = (Raise NoSuchElementException, st)) /\
  (forall n l, filter (fun n => String.eqb (ntag n) "body") (nodes (tabs st h (clock st)))
               = n :: l ->
   lookup_node (tabs st h (clock st)) (nid n) = Some n ->
   get_page_content st = (Ok (ntext n), st)).
Proof.
  unfold get_page_content, find_element_tag, text, bind, ret, raise.
  rewrite (current_page_now st h Halive Hcur). split.
  - intros E. rewrite E. reflexivity.
  - intros n l E En. rewrite E. unfold node_of, bind, ret.
    rewrite (current_page_now st h Halive Hcur), En. reflexivity.
Qed.

Lemma get_page_content_body_witness :
  get_page_content body_tab = (Ok "Leave requests", body_tab).
Proof.
  apply (proj2 (get_page_content_body body_tab 1%nat eq_refl eq_refl)
           (mk_node 2 "body" "" "" (Some 1%nat) ["Leave requests"] true true) []);
    reflexivity.
Defined.

(** [navigate_to_url] loads the address into the active window, whose
    document is then the loaded one; a load over the page-load timeout
    raises [TimeoutException] and leaves the window as it was. *)
Theorem navigate_to_url_loads (st : session) (h : nat) (url : string)
  (Halive : alive st = true) (Hcur : current st = Some h) :
  (web st url = None -> navigate_to_url url st = (Raise TimeoutException, st)) /\
  (forall tl, web st url = Some tl ->
   navigate_to_url url st = (Ok ("Navigated to " ++ url), set_tab h tl st) /\
   current_page (set_tab h tl st) = (Ok (tl (clock st)), set_tab h tl st)).
Proof.
  unfold navigate_to_url, get, live, gets, modify, bind, ret, raise.
  rewrite Halive, Hcur. split.
  - intros E. rewrite E. reflexivity.
  - intros tl E. rewrite E. split; [reflexivity|].
    rewrite (current_page_now (set_tab h tl st) h Halive Hcur). cbn.
    rewrite Nat.eqb_refl. reflexivity.
Qed.

Lemma navigate_to_url_loads_witness :
  navigate_to_url "https://erp.example/hr" web_tab
  = (Ok "Navigated to https://erp.example/hr", set_tab 1 (fun _ => body_page) web_tab).
Proof.
  apply (proj2 (navigate_to_url_loads web_tab 1%nat "https://erp.example/hr" eq_refl eq_refl)
           (fun _ => body_page)). reflexivity.
Defined.

(** On the first element matching the selector, [click_element] clicks
    when it is displayed and raises [ElementNotInteractableException]
    otherwise; [input_text] raises that exception for a hidden element,
    [InvalidElementStateException] for a disabled one, and types the text
    otherwise.  Neither changes the session. *)
Theorem plain_actions_outcomes (st : session) (h : nat) (s text : string) (r : nat)
  (l : list nat) (n : node)
  (Halive : alive st = true) (Hcur : current st = Some h)
  (Hm : css (tabs st h (clock st)) s = Some (r :: l))
  (Hn : lookup_node (tabs st h (clock st)) r = Some n) :
  click_element s st
  = ((if ndisplayed n then Ok ("Clicked element with selector: " ++ s)
      else Raise ElementNotInteractableException), st) /\
  input_text s text st
  = ((if negb (ndisplayed n) then Raise ElementNotInteractableException
      else if negb (nenabled n) then Raise InvalidElementStateException
      else Ok ("Entered text '" ++ text ++ "' into field with selector: " ++ s)), st).
Proof.
  unfold click_element, input_text, click, clear, send_keys, bind, ret, raise.
  rewrite (find_element_css_now st h s Halive Hcur), Hm. cbv beta iota.
  split; destruct (ndisplayed n) eqn:Ed, (nenabled n) eqn:Ee;
    repeat progress (rewrite ?(node_of_now st h r n Halive Hcur Hn), ?Ed, ?Ee;
                     cbv beta iota delta [negb andb]);
    reflexivity.
Qed.

Lemma plain_actions_outcomes_witness :
  click_element "#b" button_tab = (Ok "Clicked element with selector: #b", button_tab) /\
  input_text "#b" "x" button_tab = (Raise InvalidElementStateException, button_tab).
Proof.
  apply (plain_actions_outcomes button_tab 1%nat "#b" "x" 1%nat []
           (mk_node 1 "button" "b" "" None ["Send"] true false)); reflexivity.
Defined.

(** For a present element, [check_element_exists] reports its visibility,
    enablement, tag, type ("unknown" when it has none) and the first 100
    characters of its text. *)
Theorem check_element_exists_found (st : session) (h : nat) (s : string) (r : nat)
  (l : list nat) (n : node)
  (Halive : alive st = true) (Hcur : current st = Some h)
  (Hm : css (tabs st h (clock st)) s = Some (r :: l))
  (Hn : lookup_node (tabs st h (clock st)) r = Some n) :
  check_element_exists s st
  = (Ok (JObj [("exists", JBool true);
               ("visible", JBool (ndisplayed n));
               ("enabled", JBool (nenabled n));
               ("tag_name", JStr (ntag n));
               ("type", JStr (if String.eqb (nattr_type n) "" then "unknown" else nattr_type n));
               ("text", JStr (slice_to 100 (ntext n)));
               ("message", JStr ("Element '" ++ s ++ "' found and is "
                                 ++ (if ndisplayed n then "visible" else "hidden")))]), st).
Proof.
  unfold check_element_exists, try_except, is_displayed, is_enabled, tag_name,
    get_attribute, text, bind, ret.
  rewrite (find_element_css_now st h s Halive Hcur), Hm. cbv beta iota.
  run_node Halive Hcur Hn. cbn [String.eqb Ascii.eqb Bool.eqb].
  destruct (String.eqb_spec (ntext n) "") as [E|E]; [rewrite E|]; run_node Halive Hcur Hn;
    reflexivity.
Qed.

Lemma check_element_exists_found_witness :
  check_element_exists "#b" button_tab
  = (Ok (JObj [("exists", JBool true); ("visible", JBool true); ("enabled", JBool false);
               ("tag_name", JStr "button"); ("type", JStr "unknown"); ("text", JStr "Send");
               ("message", JStr "Element '#b' found and is visible")]), button_tab).
Proof.
  apply (check_element_exists_found button_tab 1%nat "#b" 1%nat []
           (mk_node 1 "button" "b" "" None ["Send"] true false)); reflexivity.
Defined.

(** [_generate_selector] gives "#id" for an element with an id, else
    ".c" for the first token c of a non-empty class attribute; a class made
    only of whitespace has no token, and the element's bare tag comes back. *)
Theorem generate_selector_id_class (st : session) (h r : nat) (n : node)
  (Halive : alive st = true) (Hcur : current st = Some h)
  (Hn : lookup_node (tabs st h (clock st)) r = Some n) :
  (nattr_id n <> "" -> _generate_selector r st = (Ok ("#" ++ nattr_id n), st)) /\
  (nattr_id n = "" -> forall c cs, py_split (nattr_class n) = c :: cs ->
   _generate_selector r st = (Ok ("." ++ c), st)) /\
  (nattr_id n = "" -> nattr_class n <> "" -> py_split (nattr_class n) = [] ->
   _generate_selector r st = (Ok (ntag n), st)).
Proof.
  unfold _generate_selector, try_except, get_attribute, tag_name, bind, ret, raise.
  run_node Halive Hcur Hn. cbn [String.eqb Ascii.eqb Bool.eqb].
  split; [|split].
  - intros E. destruct (String.eqb_spec (nattr_id n) "") as [E'|E']; [contradiction|].
    reflexivity.
  - intros E c cs Hs. rewrite E. cbn [String.eqb]. run_node Halive Hcur Hn.
    destruct (String.eqb_spec (nattr_class n) "") as [Ec|Ec].
    + rewrite Ec in Hs. discriminate Hs.
    + rewrite Hs. reflexivity.
  - intros E Ec Hs. rewrite E. cbn [String.eqb]. run_node Halive Hcur Hn.
    destruct (String.eqb_spec (nattr_class n) "") as [Ec'|Ec']; [contradiction|].
    rewrite Hs. run_node Halive Hcur Hn. reflexivity.
Qed.

Lemma generate_selector_id_class_witness :
  _generate_selector 2 controls_tab = (Ok ".btn", controls_tab).
Proof.
  apply (proj1 (proj2 (generate_selector_id_class controls_tab 1%nat 2%nat
                          (mk_node 2 "button" "" "btn primary" None ["Send"] true true)
                          eq_refl eq_refl eq_refl)) eq_refl "btn" ["primary"]).
  reflexivity.
Defined.

(** For a supported key name, [press_key] does reach the driver: with no
    matching element it raises [NoSuchElementException]; on the first match
    it sends the key when the element is displayed and enabled, and raises
    [ElementNotInteractableException] otherwise. *)
Theorem press_key_supported (st : session) (h : nat) (s k : string) (code : key)
  (Halive : alive st = true) (Hcur : current st = Some h)
  (Hk : lookup_key (upper k) key_map = Some code) :
  (css (tabs st h (clock st)) s = Some [] ->
   press_key s k st = (Raise NoSuchElementException, st)) /\
  (forall r l n, css (tabs st h (clock st)) s = Some (r :: l) ->
   lookup_node (tabs st h (clock st)) r = Some n ->
   press_key s k st
   = ((if andb (ndisplayed n) (nenabled n)
       then Ok ("Pressed " ++ upper k ++ " on element with selector: " ++ s)
       else Raise ElementNotInteractableException), st)).
Proof.
  unfold press_key. rewrite Hk. unfold send_keys, bind, ret, raise.
  rewrite (find_element_css_now st h s Halive Hcur). split.
  - intros E. rewrite E. reflexivity.
  - intros r l n E En. rewrite E. cbv beta iota.
    rewrite (node_of_now st h r n Halive Hcur En).
    destruct (andb (ndisplayed n) (nenabled n)); reflexivity.
Qed.

Lemma press_key_supported_witness :
  press_key "#b" "tab" button_tab = (Raise ElementNotInteractableException, button_tab).
Proof.
  apply (proj2 (press_key_supported button_tab 1%nat "#b" "tab" K_TAB eq_refl eq_refl eq_refl)
           1%nat [] (mk_node 1 "button" "b" "" None ["Send"] true false)); reflexivity.
Defined.

Lemma fresh_handle_new (hs : list nat) : ~ In (fresh_handle hs) hs.
Proof.
  assert (H : forall x, In x hs -> (x <= fold_right Nat.max O hs)%nat).
  { induction hs as [|a hs IH]; cbn; [tauto|].
    intros x [->|Hx]; [lia|]. specialize (IH x Hx). lia. }
  intros Hin. specialize (H _ Hin). unfold fresh_handle in H. lia.
Qed.

(** The part of [open_new_tab] before [if url:]. *)
Lemma open_new_tab_prefix (st : session) (h : nat) (k : M string) :
  alive st = true -> current st = Some h ->
  (open_blank_window;;; hs <- window_handles;; h' <- last_of hs;;
   switch_to_window h';;; k) st = k (with_new_tab st).
Proof.
  intros Ha Hc. unfold open_blank_window, window_handles, switch_to_window, live, last_of,
    gets, modify, bind, ret, raise.
  destruct st as [a hs c tb w ck lt]; cbn in Ha, Hc; subst. cbn.
  rewrite rev_app_distr. cbn. rewrite existsb_app. cbn.
  rewrite Nat.eqb_refl, orb_true_r. reflexivity.
Qed.

(** [open_new_tab] opens a new window under a handle not in use, after the
    existing ones, and makes it the active window.  With no address, or the
    empty one, the window stays blank.  With an address the window loads it;
    a load over the page-load timeout raises [TimeoutException], and the new
    window is then still open and active. *)
Theorem open_new_tab_outcomes (st : session) (h : nat)
  (Halive : alive st = true) (Hcur : current st = Some h) :
  ~ In (fresh_handle (handles st)) (handles st) /\
  open_new_tab None st = (Ok "Opened new blank tab", with_new_tab st) /\
  open_new_tab (Some "") st = (Ok "Opened new blank tab", with_new_tab st) /\
  (forall u, u <> "" -> web st u = None ->
   open_new_tab (Some u) st = (Raise TimeoutException, with_new_tab st)) /\
  (forall u tl, u <> "" -> web st u = Some tl ->
   open_new_tab (Some u) st
   = (Ok ("Opened new tab and navigated to " ++ u),
      set_tab (fresh_handle (handles st)) tl (with_new_tab st))).
Proof.
  split; [apply fresh_handle_new|].
  unfold open_new_tab. split; [|split; [|split]].
  - rewrite (open_new_tab_prefix st h _ Halive Hcur). reflexivity.
  - rewrite (open_new_tab_prefix st h _ Halive Hcur). reflexivity.
  - intros u Hu Hw. rewrite (open_new_tab_prefix st h _ Halive Hcur).
    destruct (String.eqb_spec u "") as [E|E]; [contradiction|].
    unfold get, live, gets, modify, bind, ret, raise.
    destruct st as [a hs c tb w ck lt]; cbn in Halive, Hw; subst; cbn. rewrite Hw.
    reflexivity.
  - intros u tl Hu Hw. rewrite (open_new_tab_prefix st h _ Halive Hcur).
    destruct (String.eqb_spec u "") as [E|E]; [contradiction|].
    unfold get, live, gets, modify, bind, ret, raise.
    destruct st as [a hs c tb w ck lt]; cbn in Halive, Hw; subst; cbn. rewrite Hw.
    reflexivity.
Qed.

Lemma open_new_tab_outcomes_witness :
  open_new_tab (Some "https://erp.example/hr") web_tab
  = (Ok "Opened new tab and navigated to https://erp.example/hr",
     set_tab 2 (fun _ => body_page) (with_new_tab web_tab)).
Proof.
  apply (proj2 (proj2 (proj2 (proj2 (open_new_tab_outcomes web_tab 1%nat eq_refl eq_refl))))
           "https://erp.example/hr" (fun _ => body_page)); [discriminate | reflexivity].
Defined.

(** [close_browser] never raises: on any session, live or already closed,
    it returns "Browser closed" and leaves the browser shut, so a second
    call answers the same.  Afterwards the tools that reach the driver
    raise (the kind of failure is left open). *)
Theorem close_browser_ends_session (st : session) :
  close_browser st = (Ok "Browser closed", set_alive false st) /\
  close_browser (set_alive false st) = (Ok "Browser closed", set_alive false st) /\
  (forall s text url, exists e1 e2 e3 e4 e5,
   fst (navigate_to_url url (set_alive false st)) = Raise e1 /\
   fst (click_element s (set_alive false st)) = Raise e2 /\
   fst (input_text s text (set_alive false st)) = Raise e3 /\
   fst (get_element_text s (set_alive false st)) = Raise e4 /\
   fst (open_new_tab None (set_alive false st)) = Raise e5).
Proof.
  unfold close_browser, quit, try_except, live, gets, modify, bind, ret, raise.
  split; [destruct st as [[|] hs c tb w ck lt]; reflexivity|].
  split; [reflexivity|]. intros s text url.
  assert (F := find_element_css_dead (set_alive false st) s eq_refl).
  unfold navigate_to_url, click_element, input_text, get_element_text, open_new_tab,
    open_blank_window, current_page, get, live, gets, bind, raise.
  rewrite F. do 5 eexists. repeat split; reflexivity.
Qed.

Lemma count_elements_now (st : session) (h : nat) (sels : list (string * string)) :
  alive st = true -> current st = Some h ->
  count_elements sels st
  = (Ok (map (fun kv => (fst kv, JInt (count_of (tabs st h (clock st)) (snd kv)))) sels), st).
Proof.
  intros Ha Hc. induction sels as [|[k s] sels IH]; [reflexivity|].
  cbn [count_elements map fst snd]. unfold try_except, bind, ret.
  rewrite (find_elements_css_now st h s Ha Hc).
  unfold count_of. destruct (css _ s); cbv beta iota; rewrite IH; reflexivity.
Qed.

(** On a live session with an active window, [get_page_info] reports the
    document's title and URL and, for each of the six element kinds in
    order, the number of matches of its selector (0 for a selector the
    browser rejects). *)
Theorem get_page_info_report (meta : page -> page_meta) (st : session) (h : nat)
  (Halive : alive st = true) (Hcur : current st = Some h) :
  get_page_info meta st
  = (Ok (JObj [("title", JStr (ptitle (meta (tabs st h (clock st)))));
               ("url", JStr (purl (meta (tabs st h (clock st)))));
               ("elements",
                JObj (map (fun kv => (fst kv, JInt (count_of (tabs st h (clock st)) (snd kv))))
                          common_selectors))]), st).
Proof.
  unfold get_page_info, try_except, title, current_url, bind, ret.
  repeat progress (rewrite ?(current_page_now st h Halive Hcur),
                           ?(count_elements_now st h common_selectors Halive Hcur);
                   cbv beta iota).
  reflexivity.
Qed.

Lemma get_page_info_report_witness :
  get_page_info complete_meta controls_tab
  = (Ok (JObj [("title", JStr "HR"); ("url", JStr "https://erp.example/hr");
               ("elements", JObj [("buttons", JInt 0); ("links", JInt 0); ("inputs", JInt 0);
                                  ("forms", JInt 0); ("images", JInt 0); ("tables", JInt 0)])]),
     controls_tab).
Proof. apply (get_page_info_report complete_meta controls_tab 1%nat eq_refl eq_refl). Defined.

(** [get_page_info] never raises: on an ended session, or with no active
    window, it returns a record holding only an "error" message. *)
Theorem get_page_info_faults (meta : page -> page_meta) (st : session) :
  (alive st = false ->
   get_page_info meta st
   = (Ok (JObj [("error", JStr ("Failed to get page info: " ++ str_exn InvalidSessionIdException))]),
      st)) /\
  (alive st = true -> current st = None ->
   get_page_info meta st
   = (Ok (JObj [("error", JStr ("Failed to get page info: " ++ str_exn NoSuchWindowException))]),
      st)).
Proof.
  unfold get_page_info, try_except, title, current_page, live, gets, bind, ret, raise.
  split; [intros Ha | intros Ha Hc]; rewrite Ha; [|rewrite Hc]; reflexivity.
Qed.

Lemma wait_for_page_load_total (meta : page -> page_meta) (timeout : Z) (st : session) :
  exists m st', wait_for_page_load meta timeout st = (Ok m, st').
Proof.
  unfold wait_for_page_load, try_except.
  destruct (bind _ _ st) as [[m|e] st']; [eauto|].
  destruct e; eexists; eexists; reflexivity.
Qed.

(** [wait_for_page_load] never raises.  When the document's ready state is
    already "complete" it returns the success message after one check and
    the fixed 2 s pause; when the state never becomes "complete" it returns
    the timeout message; on an ended session it returns an error message. *)
Theorem wait_for_page_load_outcomes (meta : page -> page_meta) (st : session) (h : nat)
  (timeout : Z) (Halive : alive st = true) (Hcur : current st = Some h) :
  (pready (meta (tabs st h (clock st))) = "complete" ->
   wait_for_page_load meta timeout st
   = (Ok ("Page loaded successfully within " ++ str_int timeout ++ " seconds"),
      set_clock (clock st + latency st + 2000) st)) /\
  ((forall t, pready (meta (tabs st h t)) <> "complete") ->
   fst (wait_for_page_load meta timeout st)
   = Ok ("Page load timeout after " ++ str_int timeout ++ " seconds")) /\
  fst (wait_for_page_load meta timeout (set_alive false st))
  = Ok ("Error waiting for page load: " ++ str_exn InvalidSessionIdException).
Proof.
  split; [|split].
  - intros E.
    assert (Hc : document_complete meta (set_clock (clock st) st)
                 = (Ok (Some true), set_clock (clock st) st)).
    { rewrite set_clock_clock. unfold document_complete, ready_state, bind.
      rewrite (current_page_now st h Halive Hcur). unfold ret. rewrite E. reflexivity. }
    unfold wait_for_page_load, try_except, bind at 1.
    rewrite (wait_until_ready _ _ timeout _ Hc). reflexivity.
  - intros Hn.
    assert (Hnr : never_ready (document_complete meta) st).
    { intros t. left. unfold document_complete, ready_state, bind.
      rewrite (current_page_at st h t Halive Hcur). unfold ret.
      destruct (String.eqb_spec (pready (meta (tabs st h t))) "complete") as [E|E];
        [exfalso; exact (Hn t E) | reflexivity]. }
    unfold wait_for_page_load.
    rewrite (try_bind_raise _ _ _ st TimeoutException (wait_until_never_ready _ st timeout Hnr)).
    reflexivity.
  - assert (Hf : fst (wait_until timeout (document_complete meta) (set_alive false st))
                 = Raise InvalidSessionIdException).
    { apply wait_until_first_fault; reflexivity. }
    unfold wait_for_page_load. rewrite (try_bind_raise _ _ _ _ _ Hf). reflexivity.
Qed.

Lemma wait_for_page_load_outcomes_witness :
  fst (wait_for_page_load loading_meta 0 blank_tab) = Ok "Page load timeout after 0 seconds".
Proof.
  apply (proj1 (proj2 (wait_for_page_load_outcomes loading_meta blank_tab 1%nat 0
                          eq_refl eq_refl))).
  intros t. discriminate.
Defined.

(** [refresh_page], [go_back] and [go_forward] never raise.  Once the
    driver command succeeds they report success whatever the page load
    does ([wait_for_page_load] turns a load that never completes into a
    message, which they drop); a failing driver command is reported as an
    error message. *)
Theorem navigation_tools_outcomes (meta : page -> page_meta) (cmd : M unit) (st : session) :
  (forall st', cmd st = (Ok tt, st') ->
   fst (refresh_page meta cmd st) = Ok "Page refreshed successfully" /\
   fst (go_back meta cmd st) = Ok "Navigated back successfully" /\
   fst (go_forward meta cmd st) = Ok "Navigated forward successfully") /\
  (forall e st', cmd st = (Raise e, st') ->
   fst (refresh_page meta cmd st) = Ok ("Error refreshing page: " ++ str_exn e) /\
   fst (go_back meta cmd st) = Ok ("Error navigating back: " ++ str_exn e) /\
   fst (go_forward meta cmd st) = Ok ("Error navigating forward: " ++ str_exn e)).
Proof.
  unfold refresh_page, go_back, go_forward, try_except, bind.
  split.
  - intros st' E. rewrite E. cbv beta iota.
    destruct (wait_for_page_load_total meta 10 st') as (m & st'' & W).
    rewrite W. repeat split; reflexivity.
  - intros e st' E. rewrite E. repeat split; reflexivity.
Qed.

Lemma navigation_tools_outcomes_witness :
  fst (refresh_page loading_meta (ret tt) blank_tab) = Ok "Page refreshed successfully".
Proof.
  apply (proj1 (proj1 (navigation_tools_outcomes loading_meta (ret tt) blank_tab) blank_tab
                  eq_refl)).
Defined.

(** Run the reads of the active window's document, with [Hn] locating an
    element, and the attribute-name tests on literals. *)
Ltac run_sel Ha Hc Hn :=
  repeat progress (rewrite ?(current_page_now _ _ Ha Hc), ?Hn;
                   cbv beta iota; cbn [String.eqb Ascii.eqb Bool.eqb negb]).

Lemma generate_selector_total (st : session) (h r : nat) (n : node)
  (Halive : alive st = true) (Hcur : current st = Some h)
  (Hn : lookup_node (tabs st h (clock st)) r = Some n) :
  exists sel, _generate_selector r st = (Ok sel, st).
Proof.
  unfold _generate_selector, try_except, get_attribute, tag_name, parent_of,
    find_elements_tag, node_of, bind, ret, raise.
  run_sel Halive Hcur Hn.
  destruct (String.eqb (nattr_id n) ""); run_sel Halive Hcur Hn; [|eexists; reflexivity].
  destruct (String.eqb (nattr_class n) ""); run_sel Halive Hcur Hn;
    [|destruct (py_split (nattr_class n)); run_sel Halive Hcur Hn; eexists; reflexivity].
  destruct (nparent n) as [q|]; run_sel Halive Hcur Hn; [|eexists; reflexivity].
  destruct (lookup_node (tabs st h (clock st)) q); run_sel Halive Hcur Hn;
    [|eexists; reflexivity].
  match goal with
  | |- context [?F 0%nat ?L st] =>
      assert (Hf : forall i l, exists s, F i l st = (Ok s, st));
      [|destruct (Hf 0%nat L) as [s Hs]; rewrite Hs; eexists; reflexivity]
  end.
  intros i l. revert i. induction l as [|x l IH]; intros i; cbv beta iota;
    [eexists; reflexivity|].
  destruct (Nat.eqb x r); [eexists; reflexivity | apply IH].
Qed.

Lemma bind_attempt {A B} (m : M A) (k : result A -> M B) (st : session) :
  bind (attempt m) k st = k (fst (m st)) (snd (m st)).
Proof. unfold bind, attempt. destruct (m st); reflexivity. Qed.

Lemma scan_matches_total (keep : nat -> M bool) (entry : nat -> M json) :
  forall elements acc st, exists l st', scan_matches keep entry elements acc st = (Ok l, st').
Proof.
  induction elements as [|r rest IH]; intros acc st; cbn [scan_matches];
    [eexists; eexists; reflexivity|].
  rewrite bind_attempt.
  match goal with |- context [fst (?m st)] => destruct (m st) as [[[x|]|e] st1] end;
    cbn [fst snd]; [apply IH | apply IH | eexists; eexists; reflexivity].
Qed.

Lemma collect_matches_total (keep : nat -> M bool) (entry : nat -> M json) :
  forall sels acc st, exists l st', collect_matches keep entry sels acc st = (Ok l, st').
Proof.
  induction sels as [|s rest IH]; intros acc st; cbn [collect_matches];
    [eexists; eexists; reflexivity|].
  rewrite bind_attempt.
  destruct (find_elements_css s st) as [[l|e] st1]; cbn [fst snd]; unfold bind, ret.
  - destruct (scan_matches_total keep entry l acc st1) as (acc' & st2 & E).
    rewrite E. apply IH.
  - apply IH.
Qed.

Lemma collect_matches_no_window (keep : nat -> M bool) (entry : nat -> M json)
  (st : session) :
  alive st = false \/ current st = None ->
  forall sels acc, collect_matches keep entry sels acc st = (Ok acc, st).
Proof.
  intros Hf sels. induction sels as [|s rest IH]; intros acc; cbn [collect_matches];
    [reflexivity|].
  rewrite bind_attempt. destruct (find_elements_css_no_window st s Hf) as [e E].
  rewrite E. cbn [fst snd]. unfold bind, ret. apply IH.
Qed.

(** [get_clickable_elements] and [get_form_elements] hide a session fault:
    every driver call sits inside their per-selector [try ... except:
    continue], so on an ended session, or with no active window, they
    report that no element was found instead of an error. *)
Theorem page_scans_hide_session_faults (st : session)
  (Hf : alive st = false \/ current st = None) :
  get_clickable_elements st
  = (Ok (JObj [("count", JInt 0); ("elements", JList []);
               ("message", JStr "Found 0 clickable elements")]), st) /\
  get_form_elements st
  = (Ok (JObj [("count", JInt 0); ("elements", JList []);
               ("message", JStr "Found 0 form elements")]), st).
Proof.
  unfold get_clickable_elements, get_form_elements, try_except, bind.
  rewrite !(collect_matches_no_window _ _ st Hf). split; reflexivity.
Qed.

Lemma page_scans_hide_session_faults_witness :
  get_clickable_elements (set_alive false controls_tab)
  = (Ok (JObj [("count", JInt 0); ("elements", JList []);
               ("message", JStr "Found 0 clickable elements")]), set_alive false controls_tab).
Proof. apply (page_scans_hide_session_faults (set_alive false controls_tab) (or_introl eq_refl)). Defined.

Lemma dedup_by_selector_spec (l : list json) :
  forall seen,
  NoDup (map selector_of (dedup_by_selector l seen)) /\
  (forall y, In y (dedup_by_selector l seen) -> ~ In (selector_of y) seen) /\
  (forall x, In x l ->
   In (selector_of x) seen \/ In (selector_of x) (map selector_of (dedup_by_selector l seen))).
Proof.
  induction l as [|x l IH]; intros seen; cbn [dedup_by_selector].
  - split; [constructor|]. split; [intros y []|intros x []].
  - destruct (existsb (String.eqb (selector_of x)) seen) eqn:Ex.
    + assert (Hin : In (selector_of x) seen).
      { apply existsb_exists in Ex as (z & Hz & Ez). apply String.eqb_eq in Ez.
        subst z. exact Hz. }
      destruct (IH seen) as (H1 & H2 & H3). split; [exact H1|]. split; [exact H2|].
      intros x0 [<-|Hx0]; [left; exact Hin | apply H3; exact Hx0].
    + assert (Hnin : ~ In (selector_of x) seen).
      { intros Hin. assert (existsb (String.eqb (selector_of x)) seen = true) as Et.
        { apply existsb_exists. exists (selector_of x). split; [exact Hin|].
          apply String.eqb_refl. }
        congruence. }
      destruct (IH (selector_of x :: seen)) as (H1 & H2 & H3). cbn [map]. split; [|split].
      * constructor; [|exact H1].
        intros Hm. apply in_map_iff in Hm as (y & Ey & Hy).
        apply (H2 y Hy). rewrite Ey. left. reflexivity.
      * intros y [<-|Hy]; [exact Hnin|].
        intros Hs. apply (H2 y Hy). right. exact Hs.
      * intros x0 [<-|Hx0]; [right; left; reflexivity|].
        destruct (H3 x0 Hx0) as [[E|Hs]|Hm].
        -- right. left. exact E.
        -- left. exact Hs.
        -- right. right. exact Hm.
Qed.

Lemma NoDup_firstn_list {A} (n : nat) (l : list A) : NoDup l -> NoDup (firstn n l).
Proof.
  intros H. rewrite <- (firstn_skipn n l) in H. exact (NoDup_app_remove_r _ _ H).
Qed.

(** [get_clickable_elements] never raises.  Its "elements" list holds at
    most 20 entries, no two with the same selector; "count" is the number
    of distinct selectors among all the entries it collected, and every
    collected entry's selector is among them (two elements given the same
    selector, such as two buttons whose class lists start alike, count
    once). *)
Theorem get_clickable_elements_distinct (st : session) :
  exists all_clickable,
    fst (collect_matches displayed_and_enabled clickable_entry clickable_selectors [] st)
    = Ok all_clickable /\
    fst (get_clickable_elements st)
    = Ok (JObj [("count", JInt (Z.of_nat (List.length (dedup_by_selector all_clickable []))));
                ("elements", JList (firstn 20 (dedup_by_selector all_clickable [])));
                ("message", JStr ("Found " ++ str_nat (List.length (dedup_by_selector all_clickable []))
                                  ++ " clickable elements"))]) /\
    NoDup (map selector_of (firstn 20 (dedup_by_selector all_clickable []))) /\
    (List.length (firstn 20 (dedup_by_selector all_clickable [])) <= 20)%nat /\
    (forall x, In x all_clickable ->
     In (selector_of x) (map selector_of (dedup_by_selector all_clickable []))).
Proof.
  destruct (collect_matches_total displayed_and_enabled clickable_entry clickable_selectors [] st)
    as (all & st' & E).
  exists all. rewrite E. split; [reflexivity|].
  destruct (dedup_by_selector_spec all []) as (H1 & _ & H3).
  split; [unfold get_clickable_elements, try_except, bind; rewrite E; reflexivity|].
  split; [rewrite <- firstn_map; apply NoDup_firstn_list; exact H1|].
  split; [rewrite length_firstn; lia|].
  intros x Hx. destruct (H3 x Hx) as [[]|Hm]. exact Hm.
Qed.

Lemma scan_matches_now (keep : nat -> M bool) (entry : nat -> M json) (b : nat -> bool)
  (st : session) :
  forall elements acc,
  (forall r, In r elements ->
   keep r st = (Ok (b r), st) /\ (b r = true -> exists j, entry r st = (Ok j, st))) ->
  exists js, scan_matches keep entry elements acc st = (Ok ((acc ++ js)%list), st)
             /\ List.length js = List.length (filter b elements).
Proof.
  induction elements as [|r rest IH]; intros acc Hk; cbn [scan_matches filter].
  - exists []. rewrite app_nil_r. split; reflexivity.
  - destruct (Hk r (or_introl eq_refl)) as [Kr Er].
    assert (Hk' : forall r', In r' rest ->
                  keep r' st = (Ok (b r'), st) /\ (b r' = true -> exists j, entry r' st = (Ok j, st)))
      by (intros r' Hr'; apply Hk; right; exact Hr').
    rewrite bind_attempt. unfold bind. rewrite Kr. cbv beta iota.
    destruct (b r) eqn:Eb.
    + destruct (Er eq_refl) as [j Ej]. unfold bind. rewrite Ej. cbn [fst snd ret].
      destruct (IH ((acc ++ [j])%list) Hk') as (js & E & L).
      exists (j :: js). rewrite E, <- app_assoc. split; [reflexivity|]. cbn. lia.
    + cbn [fst snd ret]. exact (IH acc Hk').
Qed.

(** The matches of the selectors [sels], for a per-element test [f]. *)
Lemma collect_matches_now (keep : nat -> M bool) (entry : nat -> M json) (f : node -> bool)
  (st : session) (h : nat) :
  alive st = true -> current st = Some h ->
  (forall r n, lookup_node (tabs st h (clock st)) r = Some n ->
   keep r st = (Ok (f n), st) /\ (f n = true -> exists j, entry r st = (Ok j, st))) ->
  forall sels acc, css_wf_on (tabs st h (clock st)) sels = true ->
  exists js, collect_matches keep entry sels acc st = (Ok ((acc ++ js)%list), st)
             /\ List.length js
                = fold_right Nat.add O
                    (map (fun s => List.length (matches_where f (tabs st h (clock st)) s)) sels).
Proof.
  intros Ha Hc Hke sels. induction sels as [|s rest IH]; intros acc Hwf;
    cbn [collect_matches map fold_right].
  - exists []. rewrite app_nil_r. split; reflexivity.
  - unfold css_wf_on in Hwf. cbn [forallb] in Hwf. apply andb_true_iff in Hwf as [Hs Hrest].
    rewrite bind_attempt. rewrite (find_elements_css_now st h s Ha Hc). unfold matches_where.
    destruct (css (tabs st h (clock st)) s) as [l|] eqn:Es; cbn [fst snd]; unfold bind, ret.
    + set (b := fun r => match lookup_node (tabs st h (clock st)) r with
                         | Some n => f n | None => false end).
      assert (Hl : forall r, In r l ->
                   keep r st = (Ok (b r), st) /\ (b r = true -> exists j, entry r st = (Ok j, st))).
      { intros r Hr. rewrite forallb_forall in Hs. specialize (Hs r Hr). unfold b.
        destruct (lookup_node (tabs st h (clock st)) r) as [n|] eqn:En; [|discriminate].
        exact (Hke r n En). }
      destruct (scan_matches_now keep entry b st l acc Hl) as (js1 & E1 & L1).
      rewrite E1. destruct (IH ((acc ++ js1)%list) Hrest) as (js2 & E2 & L2).
      exists ((js1 ++ js2)%list). rewrite E2, app_assoc. split; [reflexivity|].
      rewrite length_app, L1, L2. reflexivity.
    + destruct (IH acc Hrest) as (js & E & L). exists js. split; [exact E|]. exact L.
Qed.

Lemma form_entry_now (st : session) (h r : nat) (n : node) :
  alive st = true -> current st = Some h -> lookup_node (tabs st h (clock st)) r = Some n ->
  exists j, form_entry r st = (Ok j, st).
Proof.
  intros Ha Hc Hn. destruct (generate_selector_total st h r n Ha Hc Hn) as [sel Hs].
  unfold form_entry, tag_name, get_attribute, bind, ret.
  repeat progress (rewrite ?(node_of_now _ _ _ _ Ha Hc Hn), ?Hs; cbv beta iota).
  eexists. reflexivity.
Qed.

Lemma clickable_entry_now (st : session) (h r : nat) (n : node) :
  alive st = true -> current st = Some h -> lookup_node (tabs st h (clock st)) r = Some n ->
  exists j, clickable_entry r st = (Ok j, st).
Proof.
  intros Ha Hc Hn. destruct (generate_selector_total st h r n Ha Hc Hn) as [sel Hs].
  unfold clickable_entry, tag_name, get_attribute, text, bind, ret.
  repeat progress (rewrite ?(node_of_now _ _ _ _ Ha Hc Hn), ?Hs; cbv beta iota).
  destruct (String.eqb (ntext n) "");
    repeat progress (rewrite ?(node_of_now _ _ _ _ Ha Hc Hn), ?Hs; cbv beta iota);
    eexists; reflexivity.
Qed.

(** On a page whose CSS answers for the four form selectors name elements
    of the page, [get_form_elements] lists one entry per displayed match of
    each selector: hidden fields are left out, disabled ones are kept, an
    element matched by two selectors is listed twice, and there is no cap;
    "count" is the number of entries listed. *)
Theorem get_form_elements_lists_displayed (st : session) (h : nat)
  (Halive : alive st = true) (Hcur : current st = Some h)
  (Hwf : css_wf_on (tabs st h (clock st)) form_selectors = true) :
  exists form_elements,
    get_form_elements st
    = (Ok (JObj [("count", JInt (Z.of_nat (List.length form_elements)));
                 ("elements", JList form_elements);
                 ("message", JStr ("Found " ++ str_nat (List.length form_elements)
                                   ++ " form elements"))]), st) /\
    List.length form_elements
    = fold_right Nat.add O
        (map (fun s => List.length (matches_where ndisplayed (tabs st h (clock st)) s))
             form_selectors).
Proof.
  assert (Hke : forall r n, lookup_node (tabs st h (clock st)) r = Some n ->
                is_displayed r st = (Ok (ndisplayed n), st) /\
                (ndisplayed n = true -> exists j, form_entry r st = (Ok j, st))).
  { intros r n Hn. split.
    - unfold is_displayed, bind. rewrite (node_of_now st h r n Halive Hcur Hn). reflexivity.
    - intros _. exact (form_entry_now st h r n Halive Hcur Hn). }
  destruct (collect_matches_now is_displayed form_entry ndisplayed st h Halive Hcur Hke
              form_selectors [] Hwf) as (js & E & L).
  exists js. split; [|exact L].
  unfold get_form_elements, try_except, bind at 1. rewrite E. reflexivity.
Qed.

Lemma get_form_elements_lists_displayed_witness :
  exists form_elements,
    get_form_elements controls_tab
    = (Ok (JObj [("count", JInt (Z.of_nat (List.length form_elements)));
                 ("elements", JList form_elements);
                 ("message", JStr ("Found " ++ str_nat (List.length form_elements)
                                   ++ " form elements"))]), controls_tab) /\
    List.length form_elements = 1%nat.
Proof.
  exact (get_form_elements_lists_displayed controls_tab 1%nat eq_refl eq_refl eq_refl).
Defined.

(** On a page whose CSS answers for the seven clickable selectors name
    elements of the page, [get_clickable_elements] collects one entry per
    displayed and enabled match of each selector (an element matched by two
    selectors twice) before it removes entries with a repeated selector. *)
Theorem get_clickable_elements_collects (st : session) (h : nat)
  (Halive : alive st = true) (Hcur : current st = Some h)
  (Hwf : css_wf_on (tabs st h (clock st)) clickable_selectors = true) :
  exists all_clickable,
    collect_matches displayed_and_enabled clickable_entry clickable_selectors [] st
    = (Ok all_clickable, st) /\
    List.length all_clickable
    = fold_right Nat.add O
        (map (fun s => List.length (matches_where (fun n => andb (ndisplayed n) (nenabled n))
                                                  (tabs st h (clock st)) s))
             clickable_selectors) /\
    get_clickable_elements st
    = (Ok (JObj [("count", JInt (Z.of_nat (List.length (dedup_by_selector all_clickable []))));
                 ("elements", JList (firstn 20 (dedup_by_selector all_clickable [])));
                 ("message", JStr ("Found "
                                   ++ str_nat (List.length (dedup_by_selector all_clickable []))
                                   ++ " clickable elements"))]), st).
Proof.
  assert (Hke : forall r n, lookup_node (tabs st h (clock st)) r = Some n ->
                displayed_and_enabled r st = (Ok (andb (ndisplayed n) (nenabled n)), st) /\
                (andb (ndisplayed n) (nenabled n) = true ->
                 exists j, clickable_entry r st = (Ok j, st))).
  { intros r n Hn. split.
    - unfold displayed_and_enabled, is_displayed, is_enabled, bind, ret.
      run_node Halive Hcur Hn. destruct (ndisplayed n); run_node Halive Hcur Hn; reflexivity.
    - intros _. exact (clickable_entry_now st h r n Halive Hcur Hn). }
  destruct (collect_matches_now displayed_and_enabled clickable_entry
              (fun n => andb (ndisplayed n) (nenabled n)) st h Halive Hcur Hke
              clickable_selectors [] Hwf) as (js & E & L).
  exists js. split; [exact E|]. split; [exact L|].
  unfold get_clickable_elements, try_except, bind at 1. rewrite E. reflexivity.
Qed.

Lemma get_clickable_elements_collects_witness :
  exists all_clickable,
    collect_matches displayed_and_enabled clickable_entry clickable_selectors [] controls_tab
    = (Ok all_clickable, controls_tab) /\
    List.length all_clickable = 2%nat /\
    get_clickable_elements controls_tab
    = (Ok (JObj [("count", JInt (Z.of_nat (List.length (dedup_by_selector all_clickable []))));
                 ("elements", JList (firstn 20 (dedup_by_selector all_clickable [])));
                 ("message", JStr ("Found "
                                   ++ str_nat (List.length (dedup_by_selector all_clickable []))
                                   ++ " clickable elements"))]), controls_tab).
Proof.
  exact (get_clickable_elements_collects controls_tab 1%nat eq_refl eq_refl eq_refl).
Defined.

Lemma find_elements_by_text_counts_witness :
  exists results,
    fst (find_elements_by_text "here" true quote_tab)
    = Ok (JObj [("count", JInt (Z.of_nat (List.length [1%nat])));
                ("results", JList results);
                ("message", JStr ("Found " ++ str_nat (List.length [1%nat])
                                  ++ " elements containing '" ++ "here" ++ "'"))])
    /\ (List.length results <= 10)%nat
    /\ (10 < List.length [1%nat] -> List.length results < List.length [1%nat])%nat.
Proof.
  exact (find_elements_by_text_counts quote_tab "here" true [1%nat] eq_refl).
Defined.

Lemma filter_drop_fresh (hs : list nat) (n : nat) :
  ~ In n hs -> filter (fun h' => negb (Nat.eqb h' n)) (hs ++ [n])%list = hs.
Proof.
  intros Hn. rewrite filter_app. cbn. rewrite Nat.eqb_refl. cbn. rewrite app_nil_r.
  induction hs as [|a hs IH]; cbn; [reflexivity|].
  destruct (Nat.eqb_spec a n) as [E|E]; [subst; exfalso; apply Hn; left; reflexivity|].
  cbn. f_equal. apply IH. intros H. apply Hn. right. exact H.
Qed.

(** Opening a blank tab and closing it again leaves the same windows open,
    but the focus does not return to the window that was active before: it
    goes to the last of the original handles. *)
Theorem open_then_close_tab_focus (st : session) (h : nat)
  (Halive : alive st = true) (Hcur : current st = Some h) (Hopen : handles st <> []) :
  let st1 := snd (open_new_tab None st) in
  close_current_tab st1
  = (Ok "Closed current tab",
     set_current (Some (last (handles st) O)) (set_handles (handles st) st1)).
Proof.
  cbv zeta. unfold open_new_tab.
  rewrite (open_new_tab_prefix st h _ Halive Hcur). cbn [snd ret].
  assert (Ha1 : alive (with_new_tab st) = true) by exact Halive.
  assert (Hc1 : current (with_new_tab st) = Some (fresh_handle (handles st))) by reflexivity.
  rewrite (close_current_tab_run _ _ Ha1 Hc1).
  unfold remaining_handles.
  change (handles (with_new_tab st)) with (handles st ++ [fresh_handle (handles st)])%list.
  rewrite (filter_drop_fresh _ _ (fresh_handle_new (handles st))).
  destruct (handles st) as [|x xs] eqn:E; [congruence|].
  reflexivity.
Qed.

Lemma open_then_close_tab_focus_witness :
  let st1 := snd (open_new_tab None two_tabs) in
  close_current_tab st1
  = (Ok "Closed current tab",
     set_current (Some (last (handles two_tabs) O)) (set_handles (handles two_tabs) st1))
  /\ last (handles two_tabs) O = 2%nat /\ current two_tabs = Some 1%nat.
Proof.
  split; [|split; reflexivity].
  exact (open_then_close_tab_focus two_tabs 1%nat eq_refl eq_refl ltac:(discriminate)).
Defined.
